(** * verify.py: the GitHub asset verification script, as a shallow embedding

    The script fetches one file of one repository through the GitHub REST
    API and runs four checks on it (existence, structure, content accuracy,
    commit record).  This development embeds [src/verify.py] function by
    function and proves the properties its specification states.

    Modelling choices, all following the Python source:
    - a Python [str] is a list of Unicode code points ([pystr]);
    - [print] and [requests.get] are the only effects: a computation
      returns the events it produced, in order, and either a value or the
      exception it raised ([M]);
    - the [re] module, [base64] and the UTF-8 decoder are library code: they
      are interfaces ([RegexEngine], [Codec]); the one pattern the script
      fixes itself, [(\d+)], is embedded directly ([first_digit_run]);
    - the remote API and the process environment are a read-only [World]. *)

From Stdlib Require Import List ZArith NArith Bool Lia String Ascii.
From Stdlib Require Import DecimalString DecimalPos Permutation.
Import ListNotations.

Local Open Scope list_scope.
Set Warnings "-register-all".

(* ------------------------------------------------------------------ *)
(** ** Python strings *)

Module PyStr.

Local Open Scope N_scope.

(** A character is a Unicode code point. *)
Definition char := N.
Definition pystr := list char.

(** A continuation byte of UTF-8. *)
Definition continuation (b : N) : bool := N.leb 128 b && N.leb b 191.

(** Strict UTF-8 decoding of a byte sequence (bytes as numbers below 256):
    shortest forms only, no surrogates, nothing above U+10FFFF. *)
Fixpoint utf8_code_points (bs : list N) : option (list char) :=
  match bs with
  | [] => Some []
  | b0 :: r0 =>
      if N.ltb b0 128 then option_map (cons b0) (utf8_code_points r0)
      else if N.ltb b0 194 then None
      else if N.ltb b0 224 then
        match r0 with
        | b1 :: r1 =>
            if continuation b1
            then option_map (cons ((b0 - 192) * 64 + (b1 - 128)))
                            (utf8_code_points r1)
            else None
        | _ => None
        end
      else if N.ltb b0 240 then
        match r0 with
        | b1 :: b2 :: r2 =>
            if continuation b1 && continuation b2
               && (negb (N.eqb b0 224) || N.leb 160 b1)
               && (negb (N.eqb b0 237) || N.leb b1 159)
            then option_map
                   (cons ((b0 - 224) * 4096 + (b1 - 128) * 64 + (b2 - 128)))
                   (utf8_code_points r2)
            else None
        | _ => None
        end
      else if N.ltb b0 245 then
        match r0 with
        | b1 :: b2 :: b3 :: r3 =>
            if continuation b1 && continuation b2 && continuation b3
               && (negb (N.eqb b0 240) || N.leb 144 b1)
               && (negb (N.eqb b0 244) || N.leb b1 143)
            then option_map
                   (cons ((b0 - 240) * 262144 + (b1 - 128) * 4096
                          + (b2 - 128) * 64 + (b3 - 128)))
                   (utf8_code_points r3)
            else None
        | _ => None
        end
      else None
  end.

(** A string literal of the source (this file, like the script, is UTF-8
    text), as code points. *)
Definition py (s : string) : pystr :=
  match utf8_code_points (map N_of_ascii (list_ascii_of_string s)) with
  | Some l => l
  | None => []
  end.

(** [a == b] on [str]. *)
Fixpoint eqb (a b : pystr) : bool :=
  match a, b with
  | [], [] => true
  | x :: a', y :: b' => N.eqb x y && eqb a' b'
  | _, _ => false
  end.

(** [s.startswith(p)]: the auxiliary scan of the substring test. *)
Fixpoint startswith (p s : pystr) : bool :=
  match p, s with
  | [], _ => true
  | _ :: _, [] => false
  | x :: p', y :: s' => N.eqb x y && startswith p' s'
  end.

(** [p in s]: literal substring test, code point by code point. *)
Fixpoint contains (p s : pystr) : bool :=
  startswith p s ||
  match s with
  | [] => false
  | _ :: s' => contains p s'
  end.

(** The declarative reading of "occurs in". *)
Definition occurs_in (p s : pystr) : Prop :=
  exists pre post, s = pre ++ p ++ post.

Definition LF : char := 10%N.

(** [s.split("\n")]: never empty, the separators dropped. *)
Fixpoint split_lines (s : pystr) : list pystr :=
  match s with
  | [] => [[]]
  | c :: r =>
      if N.eqb c LF then [] :: split_lines r
      else match split_lines r with
           | l :: ls => (c :: l) :: ls
           | [] => [[c]]
           end
  end.

(** [sep.join(parts)]. *)
Fixpoint join (sep : pystr) (parts : list pystr) : pystr :=
  match parts with
  | [] => []
  | [p] => p
  | p :: rest => p ++ sep ++ join sep rest
  end.

(** [str(n)] for an [int], for every integer (CPython from 3.11 on refuses
    to render an integer of more than 4300 digits; that limit of the
    interpreter is not modelled). *)
Definition str_of_int (z : Z) : pystr := py (NilZero.string_of_int (Z.to_int z)).

(** The character class [\d] of a [str] pattern: the Unicode decimal digits
    (general category Nd), as inclusive code point ranges (Unicode 14, the
    database of CPython 3.11). *)
Definition decimal_digit_ranges : list (N * N) :=
  [ (48, 57); (1632, 1641); (1776, 1785); (1984, 1993); (2406, 2415);
    (2534, 2543); (2662, 2671); (2790, 2799); (2918, 2927); (3046, 3055);
    (3174, 3183); (3302, 3311); (3430, 3439); (3558, 3567); (3664, 3673);
    (3792, 3801); (3872, 3881); (4160, 4169); (4240, 4249); (6112, 6121);
    (6160, 6169); (6470, 6479); (6608, 6617); (6784, 6793); (6800, 6809);
    (6992, 7001); (7088, 7097); (7232, 7241); (7248, 7257); (42528, 42537);
    (43216, 43225); (43264, 43273); (43472, 43481); (43504, 43513);
    (43600, 43609); (44016, 44025); (65296, 65305); (66720, 66729);
    (68912, 68921); (69734, 69743); (69872, 69881); (69942, 69951);
    (70096, 70105); (70384, 70393); (70736, 70745); (70864, 70873);
    (71248, 71257); (71360, 71369); (71472, 71481); (71904, 71913);
    (72016, 72025); (72784, 72793); (73040, 73049); (73120, 73129);
    (92768, 92777); (92864, 92873); (93008, 93017); (120782, 120831);
    (123200, 123209); (123632, 123641); (125264, 125273);
    (130032, 130041) ]%N.

Definition is_digit (c : char) : bool :=
  existsb (fun r => N.leb (fst r) c && N.leb c (snd r)) decimal_digit_ranges.

(** The longest prefix made of digits. *)
Fixpoint take_digits (s : pystr) : pystr :=
  match s with
  | c :: r => if is_digit c then c :: take_digits r else []
  | [] => []
  end.

(** [re.search(r"(\d+)", line)] followed by [.group(1)]: the leftmost run of
    digits, taken greedily; [None] when the line has no digit. *)
Fixpoint first_digit_run (s : pystr) : option pystr :=
  match s with
  | [] => None
  | c :: r => if is_digit c then Some (c :: take_digits r)
              else first_digit_run r
  end.

End PyStr.
Import PyStr.

(* ------------------------------------------------------------------ *)
(** ** Python values, exceptions *)

Module PyVal.

(** What [response.json()] returns; [JNull] is Python's [None]. *)
Inductive json : Type :=
| JNull
| JBool (b : bool)
| JNum (z : Z)
| JStr (s : pystr)
| JArr (items : list json)
| JObj (fields : list (pystr * json)).

(** The exceptions the script can meet.  An exception that [requests.get]
    raises carries its text ([str(e)]), which the script prints; that text
    is the library's and may quote the request (an [InvalidHeader] quotes
    the header value it rejects). *)
Inductive exn : Type :=
| TypeError
| KeyError
| AttributeError
| ValueError
| ReError              (* the pattern does not compile: re.error, and
                          whatever else re.compile raises on it *)
| Base64Error          (* binascii.Error *)
| UnicodeDecodeError
| JSONDecodeError
| RequestException (text : pystr).
                       (* requests.get raised: no connection, timeout,
                          invalid header, ... *)

(** A pure computation that may raise. *)
Inductive outcome (A : Type) : Type :=
| Ok (a : A)
| Raise (e : exn).
Arguments Ok {A} a.
Arguments Raise {A} e.

Definition obind {A B} (m : outcome A) (f : A -> outcome B) : outcome B :=
  match m with
  | Ok a => f a
  | Raise e => Raise e
  end.

(** Truth value of an object, as [not x] and [if x] test it. *)
Definition truthy (j : json) : bool :=
  match j with
  | JNull => false
  | JBool b => b
  | JNum z => negb (Z.eqb z 0)
  | JStr s => match s with [] => false | _ => true end
  | JArr l => match l with [] => false | _ => true end
  | JObj kv => match kv with [] => false | _ => true end
  end.

(** Lookup in a [dict] (the JSON parser leaves one binding per key). *)
Fixpoint lookup (key : pystr) (kv : list (pystr * json)) : option json :=
  match kv with
  | [] => None
  | (k, v) :: rest => if PyStr.eqb k key then Some v else lookup key rest
  end.

(** [obj.get(key, default)]: only a [dict] has the method. *)
Definition dict_get (obj : json) (key : pystr) (default : json) : outcome json :=
  match obj with
  | JObj kv => match lookup key kv with
               | Some v => Ok v
               | None => Ok default
               end
  | _ => Raise AttributeError
  end.

(** [obj[key]] with a [str] key. *)
Definition subscript (obj : json) (key : pystr) : outcome json :=
  match obj with
  | JObj kv => match lookup key kv with
               | Some v => Ok v
               | None => Raise KeyError
               end
  | _ => Raise TypeError
  end.

(** The items a [for] loop over the object visits: the elements of a list,
    the keys of a dict, the characters of a string; nothing else iterates. *)
Definition iterate (obj : json) : outcome (list json) :=
  match obj with
  | JArr l => Ok l
  | JObj kv => Ok (map (fun p => JStr (fst p)) kv)
  | JStr s => Ok (map (fun c => JStr [c]) s)
  | _ => Raise TypeError
  end.

(** A value of the configuration that [str()] is applied to: the rules of
    [VERIFICATION_CONFIG] give [expected] as text, the source also admits a
    number. *)
Inductive pyval : Type :=
| VStr (s : pystr)
| VInt (z : Z).

(** [str(v)]. *)
Definition py_str (v : pyval) : pystr :=
  match v with
  | VStr s => s
  | VInt z => str_of_int z
  end.

End PyVal.
Import PyVal.

Declare Scope outcome_scope.
Delimit Scope outcome_scope with outcome.
Notation "x <~ m ;; k" := (obind m (fun x => k))
  (at level 61, m at next level, right associativity) : outcome_scope.

(* ------------------------------------------------------------------ *)
(** ** Library interfaces *)

(** The [re] module.  [re_compile ignorecase p] is [re.compile(p, flags)]
    with [flags] either [0] or [re.IGNORECASE]; it raises [re.error] on a
    pattern that is not a regular expression.  [pattern_search] is the
    truth value of [pattern.search(s)]. *)
Class RegexEngine : Type := {
  pattern : Type;
  re_compile : bool -> pystr -> option pattern;
  pattern_search : pattern -> pystr -> bool
}.

(** [base64.b64decode] on a [str] and [bytes.decode("utf-8")]; both decode
    the empty input to the empty output. *)
Class Codec : Type := {
  b64decode : pystr -> outcome (list Byte.byte);
  utf8_decode : list Byte.byte -> outcome pystr;
  b64decode_empty : b64decode [] = Ok [];
  utf8_decode_empty : utf8_decode [] = Ok []
}.

(** [re.search(p, s)] with the default flags, as a truth value: the module
    compiles the pattern, then searches. *)
Definition re_search `{RegexEngine} (p s : pystr) : outcome bool :=
  match re_compile false p with
  | Some c => Ok (pattern_search c s)
  | None => Raise ReError
  end.

(* ------------------------------------------------------------------ *)
(** ** Effects: console output and HTTP requests *)

Module Effects.

Inductive stream : Type := Stdout | Stderr.

(** One constructor per [print] of the source, carrying the values its
    f-string interpolates. *)
Inductive log_line : Type :=
| LRule                                         (* "=" * 50 *)
| LStart                                        (* 开始执行GitHub资产验证 *)
| LEnvTokenMissing                              (* [环境错误] 未配置GITHUB_TOKEN *)
| LEnvOrgMissing                                (* [环境错误] 未配置GITHUB_ORG *)
| LEnvReady (org repo : pystr)                  (* [环境就绪] 目标仓库 *)
| LApiNotFound (endpoint : pystr)               (* [API 提示] ... 404 *)
| LApiStatus (endpoint : pystr) (status : Z)    (* [API 错误] ... 状态码 *)
| LApiException (endpoint : pystr) (e : exn)    (* [API 异常] *)
| LDecodeError (path : pystr) (e : exn)         (* [文件解码错误] *)
| LStep1 (path branch : pystr)                  (* [1/4] 验证文件存在性 *)
| LFileNotFound (path branch : pystr)           (* [错误] 文件 ... 未找到 *)
| LFileExists (path : pystr)                    (* [成功] 文件 ... 存在 *)
| LStep2 (count : nat)                          (* [2/4] 验证文件结构 *)
| LMissing (joined : pystr)                     (* [错误] 缺失必需结构 *)
| LStructureOk                                  (* [成功] 所有必需结构均存在 *)
| LStep3Skip                                    (* [3/4 跳过] *)
| LStep3 (count : nat)                          (* [3/4] 验证内容准确性 *)
| LRuleFailed (target expected : pystr)         (* [错误] 内容规则校验失败 *)
| LContentOk                                    (* [成功] 所有内容规则校验通过 *)
| LStep4Skip                                    (* [4/4 跳过] *)
| LStep4 (msg_pattern : pystr) (max_commits : Z) (* [4/4] 验证提交记录 *)
| LCommitNotFound                               (* [错误] 未找到符合要求的提交记录 *)
| LCommitOk                                     (* [成功] 找到符合要求的提交记录 *)
| LAllPassed                                    (* ✅ 所有验证步骤通过！ *)
| LSummaryFile (path : pystr)                   (* 验证对象 *)
| LSummaryRepo (org repo : pystr).              (* 目标仓库 *)

Definition headers := list (pystr * pystr).

Inductive event : Type :=
| Print (to : stream) (line : log_line)
| HttpGet (url : pystr) (hdrs : headers).

(** An effectful computation: the events it produced, oldest first, and
    how it ended. *)
Definition M (A : Type) : Type := (list event * outcome A)%type.

Definition ret {A} (a : A) : M A := ([], Ok a).

Definition bind {A B} (m : M A) (f : A -> M B) : M B :=
  match m with
  | (t, Ok a) => let (t', r) := f a in (t ++ t', r)
  | (t, Raise e) => (t, Raise e)
  end.

Definition emit (e : event) : M unit := ([e], Ok tt).
Definition print (l : log_line) : M unit := emit (Print Stdout l).
Definition eprint (l : log_line) : M unit := emit (Print Stderr l).

(** A pure computation inside an effectful one. *)
Definition lift {A} (o : outcome A) : M A := ([], o).

Definition trace {A} (m : M A) : list event := fst m.
Definition result {A} (m : M A) : outcome A := snd m.

(** What [requests.get] can do: answer with a status and a body that
    [response.json()] parses ([None] when it does not), or raise an
    exception with the given text. *)
Inductive http_outcome : Type :=
| Responded (status : Z) (body : option json)
| Unreachable (text : pystr).

(** The surroundings of a run: the two environment variables as
    [os.environ.get] sees them after [load_dotenv], and the remote API. *)
Record World : Type := {
  env_token : option pystr;
  env_org : option pystr;
  http_get : pystr -> headers -> http_outcome
}.

Definition is_http (e : event) : bool :=
  match e with
  | HttpGet _ _ => true
  | Print _ _ => false
  end.

(** The requests a trace holds. *)
Definition requests (t : list event) : list event := filter is_http t.

(** The lines written to one stream. *)
Fixpoint printed (to : stream) (t : list event) : list log_line :=
  match t with
  | [] => []
  | Print s l :: rest =>
      match s, to with
      | Stdout, Stdout | Stderr, Stderr => l :: printed to rest
      | _, _ => printed to rest
      end
  | HttpGet _ _ :: rest => printed to rest
  end.

(** The verification steps a trace announces ([k/4] headers, run or
    skipped). *)
Fixpoint steps (t : list event) : list nat :=
  match t with
  | [] => []
  | Print _ (LStep1 _ _) :: rest => 1 :: steps rest
  | Print _ (LStep2 _) :: rest => 2 :: steps rest
  | Print _ (LStep3 _) :: rest | Print _ LStep3Skip :: rest => 3 :: steps rest
  | Print _ (LStep4 _ _) :: rest | Print _ LStep4Skip :: rest => 4 :: steps rest
  | _ :: rest => steps rest
  end.

End Effects.
Import Effects.

Declare Scope effect_scope.
Delimit Scope effect_scope with effect.
Notation "x <- m ;; k" := (bind m (fun x => k))
  (at level 61, m at next level, right associativity) : effect_scope.
Notation "m ;; k" := (bind m (fun _ => k))
  (at level 61, right associativity) : effect_scope.

(* ------------------------------------------------------------------ *)
(** ** Configuration *)

Record target_file_t : Type := {
  path : pystr;
  branch : pystr
}.

(** A content rule: the dict with keys ["type"], ["target"], ["expected"]. *)
Record content_rule : Type := {
  rule_type : pystr;
  target : pystr;
  expected : pyval
}.

(** ["max_commits"] may be left out, see [verify_commit_record]. *)
Record commit_rule : Type := {
  msg_pattern : pystr;
  max_commits : option Z
}.

(** The dict [VERIFICATION_CONFIG] has this shape; ["commit_verification"]
    is optional. *)
Record config : Type := {
  target_repo : pystr;
  target_file : target_file_t;
  required_structures : list pystr;
  content_rules : list content_rule;
  commit_verification : option commit_rule
}.

(* ------------------------------------------------------------------ *)
(** ** The script *)

Section Script.

Context {RE : RegexEngine} {CD : Codec}.
Variable w : World.

Local Open Scope effect_scope.

(** [load_env] *)
Definition load_env : option pystr * option pystr :=
  (env_token w, env_org w).

(** [build_headers] *)
Definition build_headers (github_token : pystr) : headers :=
  [ (py "Authorization", py "Bearer " ++ github_token);
    (py "Accept", py "application/vnd.github.v3+json") ].

(** [call_github_api]: one GET, never raises; the second component is
    [None] ([JNull]) on failure. *)
Definition call_github_api (endpoint : pystr) (hdrs : headers)
    (org repo : pystr) : M (bool * json) :=
  let url := py "https://api.github.com/repos/" ++ org ++ py "/" ++ repo
               ++ py "/" ++ endpoint in
  emit (HttpGet url hdrs) ;;
  match http_get w url hdrs with
  | Responded status body =>
      if Z.eqb status 200 then
        match body with
        | Some j => ret (true, j)
        | None =>
            eprint (LApiException endpoint JSONDecodeError) ;;
            ret (false, JNull)
        end
      else if Z.eqb status 404 then
        eprint (LApiNotFound endpoint) ;; ret (false, JNull)
      else
        eprint (LApiStatus endpoint status) ;; ret (false, JNull)
  | Unreachable text =>
      eprint (LApiException endpoint (RequestException text)) ;;
      ret (false, JNull)
  end.

(** The body of the [try] of [get_repo_file_content]:
    [base64.b64decode(result.get("content", "")).decode("utf-8")]. *)
Definition decode_content (result : json) : outcome pystr :=
  (v <~ dict_get result (py "content") (JStr []) ;;
   raw <~ match v with
          | JStr s => b64decode s
          | _ => Raise TypeError
          end ;;
   utf8_decode raw)%outcome.

(** [get_repo_file_content] *)
Definition get_repo_file_content (file_path : pystr) (hdrs : headers)
    (org repo branch : pystr) : M (option pystr) :=
  r <- call_github_api (py "contents/" ++ file_path ++ py "?ref=" ++ branch)
         hdrs org repo ;;
  let (success, result) := r in
  if negb success || negb (truthy result) then ret None
  else
    match decode_content result with
    | Ok s => ret (Some s)
    | Raise e => eprint (LDecodeError file_path e) ;; ret None
    end.

(** [commit["commit"]["message"]], which [pattern.search] wants a [str]. *)
Definition commit_message (commit : json) : outcome pystr :=
  (c <~ subscript commit (py "commit") ;;
   m <~ subscript c (py "message") ;;
   match m with
   | JStr s => Ok s
   | _ => Raise TypeError
   end)%outcome.

(** The [for commit in commits] loop of [search_commits]. *)
Fixpoint scan_commits (p : pattern) (commits : list json) : outcome bool :=
  match commits with
  | [] => Ok false
  | commit :: rest =>
      (m <~ commit_message commit ;;
       if pattern_search p m then Ok true else scan_commits p rest)%outcome
  end.

(** [search_commits] *)
Definition search_commits (hdrs : headers) (org repo : pystr)
    (commit_msg_pattern : pystr) (max_commits : Z) : M bool :=
  r <- call_github_api (py "commits?per_page=" ++ str_of_int max_commits)
         hdrs org repo ;;
  let (success, commits) := r in
  if negb success then ret false
  else
    lift (match re_compile true commit_msg_pattern with
          | None => Raise ReError
          | Some p => (cs <~ iterate commits ;; scan_commits p cs)%outcome
          end).

(** [verify_file_existence] *)
Definition verify_file_existence (cfg : config) (hdrs : headers)
    (org repo : pystr) : M (bool * option pystr) :=
  let file_path := path (target_file cfg) in
  let branch := branch (target_file cfg) in
  print (LStep1 file_path branch) ;;
  content <- get_repo_file_content file_path hdrs org repo branch ;;
  match content with
  | None | Some [] =>
      eprint (LFileNotFound file_path branch) ;; ret (false, None)
  | Some c =>
      print (LFileExists file_path) ;; ret (true, Some c)
  end.

(** The [for struct in required_structures] loop: [missing] in order. *)
Fixpoint missing_structures (content : pystr) (required : list pystr)
    : list pystr :=
  match required with
  | [] => []
  | struct :: rest =>
      if negb (contains struct content)
      then struct :: missing_structures content rest
      else missing_structures content rest
  end.

(** [verify_file_structure] *)
Definition verify_file_structure (content : pystr) (cfg : config) : M bool :=
  let required_structures := required_structures cfg in
  print (LStep2 (List.length required_structures)) ;;
  let missing := missing_structures content required_structures in
  match missing with
  | _ :: _ => eprint (LMissing (join (py ", ") missing)) ;; ret false
  | [] => print LStructureOk ;; ret true
  end.

(** The [for line in lines] loop of a [stat_match] rule; it leaves at the
    first line that has the label and whose first digit run is the expected
    text. *)
Fixpoint stat_scan (target expected : pystr) (lines : list pystr) : bool :=
  match lines with
  | [] => false
  | line :: rest =>
      if contains target line then
        match first_digit_run line with
        | Some d => if PyStr.eqb d expected then true
                    else stat_scan target expected rest
        | None => stat_scan target expected rest
        end
      else stat_scan target expected rest
  end.

(** The value of [matched] after the [if]/[elif] chain of one rule. *)
Definition rule_matched (content : pystr) (lines : list pystr)
    (rule : content_rule) : outcome bool :=
  if PyStr.eqb (rule_type rule) (py "stat_match") then
    Ok (stat_scan (target rule) (py_str (expected rule)) lines)
  else if PyStr.eqb (rule_type rule) (py "regex_match") then
    match expected rule with
    | VStr p => re_search p content
    | VInt _ => Raise TypeError
    end
  else if PyStr.eqb (rule_type rule) (py "text_match") then
    match expected rule with
    | VStr s => Ok (contains s content)
    | VInt _ => Raise TypeError
    end
  else Ok false.

(** The [for rule in content_rules] loop, with its early [return False]. *)
Fixpoint check_rules (content : pystr) (lines : list pystr)
    (rules : list content_rule) : M bool :=
  match rules with
  | [] => print LContentOk ;; ret true
  | rule :: rest =>
      matched <- lift (rule_matched content lines rule) ;;
      if negb matched then
        eprint (LRuleFailed (target rule) (py_str (expected rule))) ;;
        ret false
      else check_rules content lines rest
  end.

(** [verify_content_accuracy] *)
Definition verify_content_accuracy (content : pystr) (cfg : config) : M bool :=
  let content_rules := content_rules cfg in
  match content_rules with
  | [] => print LStep3Skip ;; ret true
  | _ :: _ =>
      print (LStep3 (List.length content_rules)) ;;
      let lines := split_lines content in
      check_rules content lines content_rules
  end.

(** [verify_commit_record] *)
Definition verify_commit_record (cfg : config) (hdrs : headers)
    (org repo : pystr) : M bool :=
  match commit_verification cfg with
  | None => print LStep4Skip ;; ret true
  | Some commit_config =>
      let commit_msg_pattern := msg_pattern commit_config in
      let max_commits :=
        match max_commits commit_config with Some n => n | None => 10%Z end in
      print (LStep4 commit_msg_pattern max_commits) ;;
      found <- search_commits hdrs org repo commit_msg_pattern max_commits ;;
      if negb found then eprint LCommitNotFound ;; ret false
      else print LCommitOk ;; ret true
  end.

(** [not s] for an optional string: [None] and the empty string. *)
Definition falsy (s : option pystr) : bool :=
  match s with
  | None | Some [] => true
  | Some (_ :: _) => false
  end.

(** [run_verification] *)
Definition run_verification (cfg : config) : M bool :=
  print LRule ;; print LStart ;; print LRule ;;
  let (github_token, github_org) := load_env in
  match github_token with
  | None | Some [] => eprint LEnvTokenMissing ;; ret false
  | Some token =>
  match github_org with
  | None | Some [] => eprint LEnvOrgMissing ;; ret false
  | Some org =>
      let repo_name := target_repo cfg in
      let hdrs := build_headers token in
      print (LEnvReady org repo_name) ;;
      r <- verify_file_existence cfg hdrs org repo_name ;;
      let (file_exists, file_content) := r in
      if negb file_exists then ret false else
      (* [file_content] is a string whenever [file_exists] holds *)
      let content := match file_content with Some c => c | None => [] end in
      structure_valid <- verify_file_structure content cfg ;;
      if negb structure_valid then ret false else
      content_valid <- verify_content_accuracy content cfg ;;
      if negb content_valid then ret false else
      commit_valid <- verify_commit_record cfg hdrs org repo_name ;;
      if negb commit_valid then ret false else
      print LRule ;; print LAllPassed ;;
      print (LSummaryFile (path (target_file cfg))) ;;
      print (LSummaryRepo org repo_name) ;;
      print LRule ;;
      ret true
  end
  end.

(** The [__main__] block: [sys.exit(0 if success else 1)]; an exception
    that nothing catches ends the interpreter with status 1. *)
Definition exit_code (r : outcome bool) : Z :=
  match r with
  | Ok true => 0
  | Ok false => 1
  | Raise _ => 1
  end.

Definition main (cfg : config) : list event * Z :=
  let m := run_verification cfg in (trace m, exit_code (result m)).

End Script.

(** [VERIFICATION_CONFIG] *)
Definition VERIFICATION_CONFIG : config := {|
  target_repo := py "claude-code";
  target_file := {| path := py "CLAUDE_COLLABORATION_ANALYSIS.md";
                    branch := py "main" |};
  required_structures :=
    [ py "# Claude AI 协作分析";
      py "## 汇总统计";
      py "| Developer | GitHub Username |" ];
  content_rules :=
    [ {| rule_type := py "stat_match";
         target := py "分析的提交总数：";
         expected := VStr (py "158") |};
      {| rule_type := py "regex_match";
         target := py "共同创作者邮箱";
         expected := VStr (py "noreply@anthropic\.com") |};
      {| rule_type := py "text_match";
         target := py "验证状态";
         expected := VStr (py "验证状态：通过") |} ];
  commit_verification :=
    Some {| msg_pattern := py "添加 Claude AI 协作分析报告";
            max_commits := Some 10%Z |}
|}.

(* ------------------------------------------------------------------ *)
(** ** Reference instances of the library interfaces

    The theorems below hold for every [RegexEngine] and every [Codec]; the
    instances of this part make the script executable on examples. *)

Module Reference.

Local Open Scope N_scope.

(** *** Base64 and UTF-8, after CPython *)

(** The value of a character of the base64 alphabet. *)
Definition b64_value (c : char) : option N :=
  if N.leb 65 c && N.leb c 90 then Some (c - 65)
  else if N.leb 97 c && N.leb c 122 then Some (c - 97 + 26)
  else if N.leb 48 c && N.leb c 57 then Some (c - 48 + 52)
  else if N.eqb c 43 then Some 62
  else if N.eqb c 47 then Some 63
  else None.

Definition byte_of (n : N) : Byte.byte :=
  match Byte.of_N (N.land n 255) with
  | Some b => b
  | None => Byte.x00
  end.

(** [binascii.a2b_base64] without [strict_mode]: characters outside the
    alphabet are skipped, a complete run of padding ends the input, an
    incomplete last quad is an error. *)
Fixpoint a2b_base64 (s : pystr) (quad_pos leftchar pads : N)
    (out : list Byte.byte) : outcome (list Byte.byte) :=
  match s with
  | [] => if N.eqb quad_pos 0 then Ok (rev out) else Raise Base64Error
  | c :: r =>
      if N.eqb c 61 then
        if N.leb 2 quad_pos then
          if N.leb 4 (quad_pos + (pads + 1)) then Ok (rev out)
          else a2b_base64 r quad_pos leftchar (pads + 1) out
        else a2b_base64 r quad_pos leftchar pads out
      else
        match b64_value c with
        | None => a2b_base64 r quad_pos leftchar pads out
        | Some v =>
            if N.eqb quad_pos 0 then a2b_base64 r 1 v 0 out
            else if N.eqb quad_pos 1 then
              a2b_base64 r 2 (N.land v 15) 0
                (byte_of (N.lor (N.shiftl leftchar 2) (N.shiftr v 4)) :: out)
            else if N.eqb quad_pos 2 then
              a2b_base64 r 3 (N.land v 3) 0
                (byte_of (N.lor (N.shiftl leftchar 4) (N.shiftr v 2)) :: out)
            else
              a2b_base64 r 0 0 0
                (byte_of (N.lor (N.shiftl leftchar 6) v) :: out)
        end
  end.

(** [base64.b64decode(s)] for a [str]: ASCII only, then [a2b_base64]. *)
Definition cpython_b64decode (s : pystr) : outcome (list Byte.byte) :=
  if forallb (fun c => N.ltb c 128) s then a2b_base64 s 0 0 0 []
  else Raise ValueError.

(** [bytes.decode("utf-8")] *)
Definition cpython_utf8_decode (bs : list Byte.byte) : outcome pystr :=
  match utf8_code_points (map Byte.to_N bs) with
  | Some s => Ok s
  | None => Raise UnicodeDecodeError
  end.

#[export] Instance cpython_codec : Codec := {|
  b64decode := cpython_b64decode;
  utf8_decode := cpython_utf8_decode;
  b64decode_empty := eq_refl;
  utf8_decode_empty := eq_refl
|}.

(** *** Regular expressions: the literal fragment

    A pattern of this fragment is a sequence of ordinary characters and of
    backslash-escaped ASCII punctuation; it matches where that text occurs.
    Every pattern that uses an operator is reported as an error, so the
    engine stands for [re] on literal patterns and on patterns [re] rejects
    too (an unbalanced parenthesis), and, with [re.IGNORECASE], on ASCII
    letters. *)

Definition is_special (c : char) : bool :=
  existsb (N.eqb c) (py ".^$*+?{}[]\|()").

Definition ascii_punctuation (c : char) : bool :=
  (N.leb 33 c && N.leb c 47) || (N.leb 58 c && N.leb c 64)
  || (N.leb 91 c && N.leb c 96) || (N.leb 123 c && N.leb c 126).

Fixpoint literal_of (p : pystr) : option pystr :=
  match p with
  | [] => Some []
  | c :: r =>
      if N.eqb c 92 then
        match r with
        | e :: r' => if ascii_punctuation e
                     then option_map (cons e) (literal_of r')
                     else None
        | [] => None
        end
      else if is_special c then None
      else option_map (cons c) (literal_of r)
  end.

Definition ascii_lower (c : char) : char :=
  if N.leb 65 c && N.leb c 90 then c + 32 else c.

Definition literal_search (p : bool * pystr) (s : pystr) : bool :=
  let (ignorecase, text) := p in
  if ignorecase then contains (map ascii_lower text) (map ascii_lower s)
  else contains text s.

#[export] Instance literal_engine : RegexEngine := {|
  pattern := bool * pystr;
  re_compile := fun ignorecase p =>
    option_map (pair ignorecase) (literal_of p);
  pattern_search := literal_search
|}.

End Reference.

(* ------------------------------------------------------------------ *)
(** ** Sample data: a repository that holds the report *)

Module Samples.

(** The analysed file, with [count] as the number of commits. *)
Definition report (count : string) : pystr :=
  join [LF]
    [ py "# Claude AI 协作分析";
      py "## 汇总统计";
      py "分析的提交总数：" ++ py count ++ py " 次";
      py "| Developer | GitHub Username |";
      py "共同创作者邮箱：noreply@anthropic.com";
      py "验证状态：通过";
      [] ].

(** The ["content"] field the API sends for [report "158"]: base64 of the
    UTF-8 text, broken into lines of 60 characters. *)
Definition report_158_base64 : pystr :=
  join [LF]
    [ py "IyBDbGF1ZGUgQUkg5Y2P5L2c5YiG5p6QCiMjIOaxh+aAu+e7n+iuoQrliIbm";
      py "npDnmoTmj5DkuqTmgLvmlbDvvJoxNTgg5qyhCnwgRGV2ZWxvcGVyIHwgR2l0";
      py "SHViIFVzZXJuYW1lIHwK5YWx5ZCM5Yib5L2c6ICF6YKu566x77yabm9yZXBs";
      py "eUBhbnRocm9waWMuY29tCumqjOivgeeKtuaAge+8mumAmui/hwo=";
      [] ].

(** The same for [report "200"]. *)
Definition report_200_base64 : pystr :=
  join [LF]
    [ py "IyBDbGF1ZGUgQUkg5Y2P5L2c5YiG5p6QCiMjIOaxh+aAu+e7n+iuoQrliIbm";
      py "npDnmoTmj5DkuqTmgLvmlbDvvJoyMDAg5qyhCnwgRGV2ZWxvcGVyIHwgR2l0";
      py "SHViIFVzZXJuYW1lIHwK5YWx5ZCM5Yib5L2c6ICF6YKu566x77yabm9yZXBs";
      py "eUBhbnRocm9waWMuY29tCumqjOivgeeKtuaAge+8mumAmui/hwo=";
      [] ].

(** A commit object of the commits endpoint, reduced to its message. *)
Definition commit_json (message : pystr) : json :=
  JObj [ (py "sha", JStr (py "0000000"));
         (py "commit", JObj [ (py "message", JStr message) ]) ].

(** An API that answers the listed URLs and 404 everywhere else. *)
Fixpoint serve (routes : list (pystr * http_outcome)) (url : pystr)
    (hdrs : headers) : http_outcome :=
  match routes with
  | [] => Responded 404 None
  | (u, r) :: rest => if PyStr.eqb u url then r else serve rest url hdrs
  end.

Definition contents_url : pystr :=
  py "https://api.github.com/repos/anthropics/claude-code/contents/CLAUDE_COLLABORATION_ANALYSIS.md?ref=main".

Definition commits_url (per_page : string) : pystr :=
  py "https://api.github.com/repos/anthropics/claude-code/commits?per_page="
  ++ py per_page.

Definition file_response (content_b64 : pystr) : http_outcome :=
  Responded 200
    (Some (JObj [ (py "name", JStr (py "CLAUDE_COLLABORATION_ANALYSIS.md"));
                  (py "encoding", JStr (py "base64"));
                  (py "content", JStr content_b64) ])).

(** The history of the sample repository, newest first. *)
Definition history : list pystr :=
  [ py "Fix typo in README";
    py "添加 claude ai 协作分析报告";
    py "Initial commit" ].

Definition world_with (token org : option pystr)
    (routes : list (pystr * http_outcome)) : World :=
  {| env_token := token; env_org := org; http_get := serve routes |}.

(** Everything in place. *)
Definition good_world : World :=
  world_with (Some (py "ghp_token")) (Some (py "anthropics"))
    [ (contents_url, file_response report_158_base64);
      (commits_url "10", Responded 200 (Some (JArr (map commit_json history)))) ].

(** The report counts 200 commits. *)
Definition stale_world : World :=
  world_with (Some (py "ghp_token")) (Some (py "anthropics"))
    [ (contents_url, file_response report_200_base64);
      (commits_url "10", Responded 200 (Some (JArr (map commit_json history)))) ].

(** The file is not there. *)
Definition empty_world : World :=
  world_with (Some (py "ghp_token")) (Some (py "anthropics")) [].

(** The file is there, the commits endpoint is down. *)
Definition no_commits_world : World :=
  world_with (Some (py "ghp_token")) (Some (py "anthropics"))
    [ (contents_url, file_response report_158_base64);
      (commits_url "10", Responded 500 None) ].

(** Two lines carry the label; only the second has the expected count. *)
Definition two_totals : pystr :=
  join [LF] [ py "total: 200"; py "total: 158" ].

Definition total_rule : content_rule :=
  {| rule_type := py "stat_match";
     target := py "total:";
     expected := VStr (py "158") |}.

(** The first rule of [VERIFICATION_CONFIG]. *)
Definition count_rule : content_rule :=
  {| rule_type := py "stat_match";
     target := py "分析的提交总数：";
     expected := VStr (py "158") |}.

(** A rule of a kind the script does not know. *)
Definition fuzzy_rule : content_rule :=
  {| rule_type := py "fuzzy_match";
     target := py "total:";
     expected := VStr (py "total") |}.

(** A rule whose pattern is no regular expression. *)
Definition broken_rule : content_rule :=
  {| rule_type := py "regex_match";
     target := py "anything";
     expected := VStr (py "(") |}.

Definition config_with (rules : list content_rule) : config :=
  {| target_repo := target_repo VERIFICATION_CONFIG;
     target_file := target_file VERIFICATION_CONFIG;
     required_structures := required_structures VERIFICATION_CONFIG;
     content_rules := rules;
     commit_verification := commit_verification VERIFICATION_CONFIG |}.

(** The commits endpoint of the sample repository, for a page size. *)
Definition commits_page (per_page : nat) : http_outcome :=
  Responded 200 (Some (JArr (firstn per_page (map commit_json history)))).

(** An API that honours [per_page] on the sample history. *)
Definition paged_world : World :=
  world_with (Some (py "ghp_token")) (Some (py "anthropics"))
    [ (contents_url, file_response report_158_base64);
      (commits_url "1", commits_page 1);
      (commits_url "2", commits_page 2);
      (commits_url "10", commits_page 10) ].

(** [VERIFICATION_CONFIG] with another limit on the commits. *)
Definition limited_rule (limit : Z) : commit_rule :=
  {| msg_pattern := py "添加 Claude AI 协作分析报告";
     max_commits := Some limit |}.

Definition limited_config (limit : Z) : config :=
  {| target_repo := target_repo VERIFICATION_CONFIG;
     target_file := target_file VERIFICATION_CONFIG;
     required_structures := required_structures VERIFICATION_CONFIG;
     content_rules := content_rules VERIFICATION_CONFIG;
     commit_verification := Some (limited_rule limit) |}.

(** The credentials are not set. *)
Definition no_token_world : World :=
  world_with None (Some (py "anthropics"))
    [ (contents_url, file_response report_158_base64) ].

Definition no_org_world : World :=
  world_with (Some (py "ghp_token")) None
    [ (contents_url, file_response report_158_base64) ].

(** The path names a directory: the API answers with a listing. *)
Definition listing_world : World :=
  world_with (Some (py "ghp_token")) (Some (py "anthropics"))
    [ (contents_url,
       Responded 200
         (Some (JArr [ JObj [ (py "name", JStr (py "README.md")) ] ]))) ].


(** [VERIFICATION_CONFIG] with a commit pattern that does not compile. *)
Definition broken_pattern_rule : commit_rule :=
  {| msg_pattern := py "("; max_commits := None |}.

Definition broken_pattern_config : config :=
  {| target_repo := target_repo VERIFICATION_CONFIG;
     target_file := target_file VERIFICATION_CONFIG;
     required_structures := required_structures VERIFICATION_CONFIG;
     content_rules := content_rules VERIFICATION_CONFIG;
     commit_verification := Some broken_pattern_rule |}.

(** A transport that validates header values as [requests] does: a value
    with a carriage return or a line feed is refused with an exception
    whose text quotes it. *)
Definition bad_header_value (hdrs : headers) : option pystr :=
  match find (fun h => existsb (fun c => N.eqb c 13 || N.eqb c LF) (snd h))
             hdrs with
  | Some h => Some (snd h)
  | None => None
  end.

Definition strict_world : World :=
  {| env_token := Some (py "ghp_token" ++ [13%N]);
     env_org := Some (py "anthropics");
     http_get := fun url hdrs =>
       match bad_header_value hdrs with
       | Some value =>
           Unreachable (py "Invalid return character(s) in header value: "
                        ++ value)
       | None => serve [] url hdrs
       end |}.


End Samples.

(* ------------------------------------------------------------------ *)
(** ** Vocabulary of the statements *)

(** A line qualifies for a [stat_match] rule: it has the label, and its
    first run of digits is the expected text. *)
Definition qualifies (label number line : pystr) : Prop :=
  occurs_in label line /\ first_digit_run line = Some number.

(** The three kinds of rule the script knows. *)
Definition stat_match (label : pystr) (number : pyval) : content_rule :=
  {| rule_type := py "stat_match"; target := label; expected := number |}.

Definition regex_match (label regex : pystr) : content_rule :=
  {| rule_type := py "regex_match"; target := label; expected := VStr regex |}.

Definition text_match (label text : pystr) : content_rule :=
  {| rule_type := py "text_match"; target := label; expected := VStr text |}.

(** Two rules that differ at most in the [target] of a [regex_match] or
    [text_match] rule. *)
Definition same_but_target (r r' : content_rule) : Prop :=
  rule_type r = rule_type r' /\ expected r = expected r' /\
  (rule_type r = py "regex_match" \/ rule_type r = py "text_match"
   \/ target r = target r').

(** The URL of an endpoint of a repository. *)
Definition api_url (org repo endpoint : pystr) : pystr :=
  py "https://api.github.com/repos/" ++ org ++ py "/" ++ repo
    ++ py "/" ++ endpoint.

Definition contents_endpoint (file_path branch : pystr) : pystr :=
  py "contents/" ++ file_path ++ py "?ref=" ++ branch.

Definition commits_endpoint (per_page : Z) : pystr :=
  py "commits?per_page=" ++ str_of_int per_page.

(** The parsed body of a call that succeeds: status 200 and a body that is
    JSON.  Every other outcome of the request is a failed call. *)
Definition api_answer (w : World) (url : pystr) (hdrs : headers)
    : option json :=
  match http_get w url hdrs with
  | Responded status (Some j) => if Z.eqb status 200 then Some j else None
  | _ => None
  end.

(** The number of commits a rule asks for: [max_commits], 10 by default. *)
Definition commit_limit (rule : commit_rule) : Z :=
  match max_commits rule with
  | Some n => n
  | None => 10%Z
  end.

(** The three lines every run starts with. *)
Definition banner : list event :=
  [Print Stdout LRule; Print Stdout LStart; Print Stdout LRule].

(** The credentials of a run, when both variables are set and not empty. *)
Definition credentials (w : World) : option (pystr * pystr) :=
  match env_token w, env_org w with
  | Some (t :: ts), Some (o :: os) => Some (t :: ts, o :: os)
  | _, _ => None
  end.

(** Every step of a run passes. *)
Definition all_steps_pass `{RegexEngine} `{Codec} (w : World) (cfg : config)
    : Prop :=
  exists token org content,
    credentials w = Some (token, org)
    /\ result (verify_file_existence w cfg (build_headers token) org
                 (target_repo cfg)) = Ok (true, Some content)
    /\ result (verify_file_structure content cfg) = Ok true
    /\ result (verify_content_accuracy content cfg) = Ok true
    /\ result (verify_commit_record w cfg (build_headers token) org
                 (target_repo cfg)) = Ok true.

(** How a step that did not pass ends the run: [False] is returned, an
    exception goes on. *)
Definition halted (r : outcome bool) : outcome bool :=
  match r with
  | Ok _ => Ok false
  | Raise e => Raise e
  end.

(** The requests a run with credentials is set to send, in order: the
    file, then the commits when a commit rule is configured. *)
Definition planned_requests (cfg : config) (token org : pystr) : list event :=
  HttpGet (api_url org (target_repo cfg)
             (contents_endpoint (path (target_file cfg))
                                (branch (target_file cfg))))
          (build_headers token)
  :: match commit_verification cfg with
     | Some rule =>
         [HttpGet (api_url org (target_repo cfg)
                     (commits_endpoint (commit_limit rule)))
                  (build_headers token)]
     | None => []
     end.


(** No character of the text is a separator. *)
Definition single_line (l : pystr) : Prop := ~ In LF l.

(** The verdict of a rule: whether it evaluates to a match. *)
Definition verdict `{RegexEngine} (content : pystr) (rule : content_rule)
    : bool :=
  match rule_matched content (split_lines content) rule with
  | Ok true => true
  | _ => false
  end.


(** A commit object as the API lists it: an object whose ["commit"] field
    is an object whose ["message"] field is the string [message]. *)
Definition carries_message (commit : json) (message : pystr) : Prop :=
  exists fields inner,
    commit = JObj fields
    /\ lookup (py "commit") fields = Some (JObj inner)
    /\ lookup (py "message") inner = Some (JStr message).

(** The number a decimal numeral stands for: ASCII digits, most
    significant first, after an optional minus sign. *)
Definition digit_value (c : char) : option Z :=
  if N.leb 48 c && N.leb c 57 then Some (Z.of_N (c - 48)) else None.

Fixpoint numeral_value (acc : Z) (s : pystr) : option Z :=
  match s with
  | [] => Some acc
  | c :: r =>
      match digit_value c with
      | Some d => numeral_value (10 * acc + d) r
      | None => None
      end
  end.

Definition decimal_value (s : pystr) : option Z :=
  match s with
  | [] => None
  | c :: r =>
      if N.eqb c 45 then
        match r with
        | [] => None
        | _ :: _ => option_map Z.opp (numeral_value 0 r)
        end
      else numeral_value 0 s
  end.

(** The characters of a sequence of decimal digits. *)
Fixpoint uint_chars (d : Decimal.uint) : pystr :=
  match d with
  | Decimal.Nil => []
  | Decimal.D0 l => 48%N :: uint_chars l
  | Decimal.D1 l => 49%N :: uint_chars l
  | Decimal.D2 l => 50%N :: uint_chars l
  | Decimal.D3 l => 51%N :: uint_chars l
  | Decimal.D4 l => 52%N :: uint_chars l
  | Decimal.D5 l => 53%N :: uint_chars l
  | Decimal.D6 l => 54%N :: uint_chars l
  | Decimal.D7 l => 55%N :: uint_chars l
  | Decimal.D8 l => 56%N :: uint_chars l
  | Decimal.D9 l => 57%N :: uint_chars l
  end.

(* ------------------------------------------------------------------ *)
(** * Properties *)

(** ** Strings *)

Lemma eqb_eq (a b : pystr) : PyStr.eqb a b = true <-> a = b.
Proof.
  revert b; induction a as [|x a IH]; intros [|y b]; simpl;
    try (split; [discriminate | congruence]); try tauto.
  rewrite andb_true_iff, N.eqb_eq, IH. split.
  - intros [-> ->]; reflexivity.
  - intros E; injection E; auto.
Qed.

Lemma eqb_refl (a : pystr) : PyStr.eqb a a = true.
Proof. apply eqb_eq; reflexivity. Qed.

Lemma eqb_neq (a b : pystr) : PyStr.eqb a b = false <-> a <> b.
Proof.
  rewrite <- eqb_eq. destruct (PyStr.eqb a b); split; congruence.
Qed.

Lemma startswith_spec (p s : pystr) :
  startswith p s = true <-> exists post, s = p ++ post.
Proof.
  revert s; induction p as [|x p IH]; intros s; simpl.
  - split; [intros _; exists s; reflexivity | reflexivity].
  - destruct s as [|y s].
    + split; [discriminate | intros [post E]; discriminate].
    + rewrite andb_true_iff, N.eqb_eq, IH. split.
      * intros [-> [post ->]]. exists post; reflexivity.
      * intros [post E]. injection E as -> ->. split; [reflexivity|].
        exists post; reflexivity.
Qed.

(** The substring test decides "occurs in". *)
Lemma contains_spec (p s : pystr) : contains p s = true <-> occurs_in p s.
Proof.
  unfold occurs_in. induction s as [|c s IH].
  - simpl. rewrite orb_false_r, startswith_spec. split.
    + intros [post E]. exists [], post. exact E.
    + intros [pre [post E]]. destruct pre; [|discriminate].
      exists post. exact E.
  - change (contains p (c :: s))
      with (startswith p (c :: s) || contains p s).
    rewrite orb_true_iff, startswith_spec, IH. split.
    + intros [[post E] | [pre [post E]]].
      * exists [], post. exact E.
      * exists (c :: pre), post. simpl. rewrite E. reflexivity.
    + intros [[|c' pre] [post E]].
      * left. exists post. exact E.
      * right. injection E as -> E. exists pre, post. exact E.
Qed.

Lemma contains_false (p s : pystr) : contains p s = false <-> ~ occurs_in p s.
Proof.
  rewrite <- contains_spec. destruct (contains p s); split; congruence.
Qed.

Lemma split_lines_nonempty (s : pystr) : split_lines s <> [].
Proof.
  destruct s as [|c s]; simpl; [discriminate|].
  destruct (N.eqb c LF); [discriminate|].
  destruct (split_lines s); discriminate.
Qed.

(** [split] and [join] are inverse, and no line keeps a separator. *)
Lemma join_split_lines (s : pystr) : join [LF] (split_lines s) = s.
Proof.
  induction s as [|c s IH]; [reflexivity|].
  pose proof (split_lines_nonempty s) as NE.
  simpl split_lines. destruct (N.eqb_spec c LF) as [->|_].
  - destruct (split_lines s) as [|l ls]; [congruence|].
    change (join [LF] ([] :: l :: ls)) with (LF :: join [LF] (l :: ls)).
    rewrite IH. reflexivity.
  - destruct (split_lines s) as [|l ls]; [congruence|].
    destruct ls; simpl in *; rewrite <- IH; reflexivity.
Qed.

Lemma split_lines_no_LF (s : pystr) :
  Forall (fun l => ~ In LF l) (split_lines s).
Proof.
  induction s as [|c s IH]; simpl.
  - constructor; [intros []|constructor].
  - destruct (N.eqb_spec c LF) as [->|N].
    + constructor; [intros []|exact IH].
    + destruct (split_lines s) as [|l ls].
      * constructor; [intros [E|[]]; congruence | constructor].
      * inversion IH; subst. constructor; [|assumption].
        intros [E|I]; [congruence|contradiction].
Qed.

(** What "the first run of digits" is: the digits after the longest
    digit-free prefix, up to the next character that is no digit. *)
Lemma take_digits_spec (s : pystr) :
  exists post, s = take_digits s ++ post
    /\ forallb is_digit (take_digits s) = true
    /\ match post with [] => True | c :: _ => is_digit c = false end.
Proof.
  induction s as [|c s [post [E [D P]]]]; simpl.
  - exists []. auto.
  - destruct (is_digit c) eqn:Dc.
    + exists post. simpl. rewrite Dc, D. rewrite <- E. auto.
    + exists (c :: s). auto.
Qed.

Lemma first_digit_run_spec (s d : pystr) :
  first_digit_run s = Some d ->
  exists pre post, s = pre ++ d ++ post
    /\ forallb (fun c => negb (is_digit c)) pre = true
    /\ d <> [] /\ forallb is_digit d = true
    /\ match post with [] => True | c :: _ => is_digit c = false end.
Proof.
  revert d; induction s as [|c s IH]; simpl; intros d; [discriminate|].
  destruct (is_digit c) eqn:Dc.
  - intros E; injection E as <-.
    destruct (take_digits_spec s) as [post [E [D P]]].
    exists [], post. simpl. rewrite Dc, D. rewrite <- E.
    repeat split; auto. discriminate.
  - intros E. destruct (IH d E) as [pre [post [-> [Np [Nd [D P]]]]]].
    exists (c :: pre), post. simpl. rewrite Dc, Np. auto.
Qed.

Lemma first_digit_run_none (s : pystr) :
  first_digit_run s = None <-> forallb (fun c => negb (is_digit c)) s = true.
Proof.
  induction s as [|c s IH]; simpl; [tauto|].
  destruct (is_digit c); simpl; [split; discriminate | exact IH].
Qed.

(* ------------------------------------------------------------------ *)
(** ** Content rules *)

Section ContentRules.

Context {RE : RegexEngine}.
Variables (content : pystr) (lines : list pystr).

Lemma stat_line_qualifies (label number line : pystr) :
  qualifies label number line <->
  contains label line = true /\
  exists d, first_digit_run line = Some d /\ PyStr.eqb d number = true.
Proof.
  unfold qualifies. rewrite contains_spec. split.
  - intros [O F]. split; [exact O|]. exists number. split; [exact F|].
    apply eqb_refl.
  - intros [O [d [F E]]]. apply eqb_eq in E. subst d. auto.
Qed.

(** The scan answers whether some line qualifies. *)
Lemma stat_scan_spec (label number : pystr) (ls : list pystr) :
  stat_scan label number ls = true <->
  exists line, In line ls /\ qualifies label number line.
Proof.
  induction ls as [|l ls IH]; simpl.
  - split; [discriminate | intros [line [[] _]]].
  - assert (Q : qualifies label number l \/ ~ qualifies label number l).
    { rewrite stat_line_qualifies.
      destruct (contains label l); [|right; intros [? _]; discriminate].
      destruct (first_digit_run l) as [d|];
        [|right; intros [_ [d [? _]]]; discriminate].
      destruct (PyStr.eqb d number) eqn:E.
      - left. split; [reflexivity|]. exists d. auto.
      - right. intros [_ [d' [F E']]]. congruence. }
    destruct Q as [Q|Q].
    + pose proof Q as Q'. apply stat_line_qualifies in Q'.
      destruct Q' as [C [d [F E]]]. rewrite C, F, E.
      split; [|reflexivity]. intros _. exists l. auto.
    + assert (S : stat_scan label number (l :: ls)
                  = stat_scan label number ls).
      { simpl. destruct (contains label l) eqn:C; [|reflexivity].
        destruct (first_digit_run l) as [d|] eqn:F; [|reflexivity].
        destruct (PyStr.eqb d number) eqn:E; [|reflexivity].
        exfalso. apply Q. apply stat_line_qualifies.
        split; [exact C|]. exists d. auto. }
      simpl in S. rewrite S, IH. split.
      * intros [line [I H]]. exists line. auto.
      * intros [line [[<-|I] H]]; [contradiction|]. exists line. auto.
Qed.

Lemma rule_matched_stat (label : pystr) (number : pyval) :
  rule_matched content lines (stat_match label number)
  = Ok (stat_scan label (py_str number) lines).
Proof. reflexivity. Qed.

Lemma rule_matched_regex (label p : pystr) :
  rule_matched content lines (regex_match label p)
  = re_search p content.
Proof. reflexivity. Qed.

Lemma rule_matched_text (label s : pystr) :
  rule_matched content lines (text_match label s)
  = Ok (contains s content).
Proof. reflexivity. Qed.

(** The loop over the rules: rules that match are passed over without a
    trace, the first that does not match ends the loop. *)
Lemma check_rules_passed (passed rest : list content_rule) :
  Forall (fun r => rule_matched content lines r = Ok true) passed ->
  check_rules content lines (passed ++ rest) = check_rules content lines rest.
Proof.
  induction 1 as [|r passed H _ IH]; [reflexivity|].
  simpl. rewrite H. simpl. rewrite IH.
  destruct (check_rules content lines rest). reflexivity.
Qed.

Lemma check_rules_failed (rule : content_rule) (rest : list content_rule) :
  rule_matched content lines rule = Ok false ->
  check_rules content lines (rule :: rest)
  = ([Print Stderr (LRuleFailed (target rule) (py_str (expected rule)))],
     Ok false).
Proof. intros H. simpl. rewrite H. reflexivity. Qed.

Lemma check_rules_raised (rule : content_rule) (rest : list content_rule)
    (e : exn) :
  rule_matched content lines rule = Raise e ->
  check_rules content lines (rule :: rest) = ([], Raise e).
Proof. intros H. simpl. rewrite H. reflexivity. Qed.

Lemma check_rules_all_passed (rules : list content_rule) :
  Forall (fun r => rule_matched content lines r = Ok true) rules ->
  check_rules content lines rules = ([Print Stdout LContentOk], Ok true).
Proof.
  intros H. rewrite <- (app_nil_r rules), (check_rules_passed _ [] H).
  reflexivity.
Qed.

End ContentRules.

(* ------------------------------------------------------------------ *)
(** ** The content-accuracy step *)

Section ContentAccuracy.

Context {RE : RegexEngine}.

Lemma verify_content_accuracy_rules (content : pystr) (cfg : config) :
  content_rules cfg <> [] ->
  verify_content_accuracy content cfg
  = (let (t, r) := check_rules content (split_lines content)
                     (content_rules cfg) in
     (Print Stdout (LStep3 (List.length (content_rules cfg))) :: t, r)).
Proof.
  unfold verify_content_accuracy. destruct (content_rules cfg) as [|r rs].
  - congruence.
  - intros _. unfold bind, print, emit.
    destruct (check_rules content (split_lines content) (r :: rs)).
    reflexivity.
Qed.

Lemma verify_content_accuracy_result (content : pystr) (cfg : config) :
  result (verify_content_accuracy content cfg)
  = match content_rules cfg with
    | [] => Ok true
    | rules => result (check_rules content (split_lines content) rules)
    end.
Proof.
  unfold verify_content_accuracy. destruct (content_rules cfg) as [|r rs].
  - reflexivity.
  - unfold bind, print, emit, result.
    destruct (check_rules content (split_lines content) (r :: rs)).
    reflexivity.
Qed.

(** The step stops at the first rule that does not match. *)
Lemma verify_content_accuracy_stops (content : pystr) (cfg : config)
    (passed : list content_rule) (failing : content_rule)
    (rest : list content_rule) :
  content_rules cfg = passed ++ failing :: rest ->
  Forall (fun r => rule_matched content (split_lines content) r = Ok true)
         passed ->
  rule_matched content (split_lines content) failing = Ok false ->
  verify_content_accuracy content cfg
  = ([Print Stdout (LStep3 (List.length (content_rules cfg)));
      Print Stderr (LRuleFailed (target failing) (py_str (expected failing)))],
     Ok false).
Proof.
  intros E P F.
  rewrite verify_content_accuracy_rules
    by (rewrite E; destruct passed; discriminate).
  rewrite E at 1. rewrite (check_rules_passed _ _ _ _ P).
  rewrite (check_rules_failed _ _ _ rest F). reflexivity.
Qed.

(** C1 (amended): a [stat_match] rule matches exactly when some line of the
    content has the target label and a first digit run equal, as text, to
    the expected value; the scan goes through the lines in order and stops
    at the first such line, and a line that has the label with another
    number is passed over without ending the scan. *)
Theorem stat_match_some_qualifying_line
    (content label : pystr) (number : pyval) :
  (rule_matched content (split_lines content) (stat_match label number)
   = Ok true
   <-> exists line, In line (split_lines content)
                    /\ qualifies label (py_str number) line)
  /\ (rule_matched content (split_lines content) (stat_match label number)
      = Ok false
      <-> forall line, In line (split_lines content) ->
                       ~ qualifies label (py_str number) line)
  /\ (forall before line after,
        qualifies label (py_str number) line ->
        stat_scan label (py_str number) (before ++ line :: after) = true).
Proof.
  rewrite rule_matched_stat. repeat split.
  - intros E. apply stat_scan_spec. congruence.
  - intros H. apply stat_scan_spec in H. congruence.
  - intros E line I Q.
    assert (S : stat_scan label (py_str number) (split_lines content) = true)
      by (apply stat_scan_spec; exists line; auto).
    congruence.
  - intros H.
    destruct (stat_scan label (py_str number) (split_lines content)) eqn:S;
      [|reflexivity].
    apply stat_scan_spec in S. destruct S as [line [I Q]].
    destruct (H line I Q).
  - intros before line after Q. apply stat_scan_spec.
    exists line. split; [|exact Q]. apply in_or_app. right. left. reflexivity.
Qed.

(** C3: with no rule the step passes at once; otherwise the rules are
    evaluated in the configured order and the step returns failure at the
    first rule that does not match, whatever rules come after it. *)
Theorem content_accuracy_fail_fast (content : pystr) (cfg : config) :
  (content_rules cfg = [] ->
   verify_content_accuracy content cfg = ([Print Stdout LStep3Skip], Ok true))
  /\ (forall passed failing rest,
        content_rules cfg = passed ++ failing :: rest ->
        Forall (fun r => rule_matched content (split_lines content) r
                         = Ok true) passed ->
        rule_matched content (split_lines content) failing = Ok false ->
        verify_content_accuracy content cfg
        = ([Print Stdout (LStep3 (List.length (content_rules cfg)));
            Print Stderr (LRuleFailed (target failing)
                                      (py_str (expected failing)))],
           Ok false)).
Proof.
  split.
  - intros E. unfold verify_content_accuracy. rewrite E. reflexivity.
  - intros passed failing rest E P F.
    exact (verify_content_accuracy_stops content cfg passed failing rest
             E P F).
Qed.

(** C8: a [regex_match] rule succeeds exactly when its pattern, compiled
    with the default flags, is found in the whole content, a [text_match]
    rule exactly when its text occurs in the whole content; the lines play
    no part in either. *)
Theorem whole_content_rules (content label : pystr) :
  (forall lines p,
     rule_matched content lines (regex_match label p) = Ok true
     <-> exists c, re_compile false p = Some c
                   /\ pattern_search c content = true)
  /\ (forall lines s,
        rule_matched content lines (text_match label s) = Ok true
        <-> occurs_in s content)
  /\ (forall lines lines' p,
        rule_matched content lines (regex_match label p)
        = rule_matched content lines' (regex_match label p))
  /\ (forall lines lines' s,
        rule_matched content lines (text_match label s)
        = rule_matched content lines' (text_match label s)).
Proof.
  repeat split.
  - rewrite rule_matched_regex. unfold re_search.
    destruct (re_compile false p) as [c|]; [|discriminate].
    intros E. exists c. split; [reflexivity|congruence].
  - intros [c [C S]]. rewrite rule_matched_regex. unfold re_search.
    rewrite C, S. reflexivity.
  - rewrite rule_matched_text. intros E. apply contains_spec. congruence.
  - intros O. rewrite rule_matched_text. apply contains_spec in O.
    rewrite O. reflexivity.
Qed.

Lemma rule_matched_same_but_target (content : pystr) (lines : list pystr)
    (r r' : content_rule) :
  same_but_target r r' ->
  rule_matched content lines r = rule_matched content lines r'.
Proof.
  intros [T [E K]]. unfold rule_matched. rewrite <- T, <- E.
  destruct K as [K|[K|K]].
  - rewrite K. reflexivity.
  - rewrite K. reflexivity.
  - rewrite K. reflexivity.
Qed.

Lemma check_rules_same_but_target (content : pystr) (lines : list pystr)
    (rules rules' : list content_rule) :
  Forall2 same_but_target rules rules' ->
  result (check_rules content lines rules)
  = result (check_rules content lines rules').
Proof.
  induction 1 as [|r r' rules rules' S _ IH]; [reflexivity|].
  simpl. rewrite <- (rule_matched_same_but_target _ _ _ _ S).
  destruct (rule_matched content lines r) as [[|]|e]; simpl; try reflexivity.
  unfold result in IH.
  destruct (check_rules content lines rules),
           (check_rules content lines rules'). exact IH.
Qed.

(** C9: two rule lists that differ only in the [target] of [regex_match]
    and [text_match] rules give the content-accuracy step the same result;
    the target of such a rule only appears in the diagnostic line. *)
Theorem target_only_diagnostic (content : pystr) (cfg cfg' : config) :
  Forall2 same_but_target (content_rules cfg) (content_rules cfg') ->
  result (verify_content_accuracy content cfg)
  = result (verify_content_accuracy content cfg').
Proof.
  intros S. rewrite !verify_content_accuracy_result.
  revert S. generalize (content_rules cfg) (content_rules cfg').
  intros rules rules' S.
  pose proof (check_rules_same_but_target content (split_lines content)
                _ _ S) as R.
  destruct S; [reflexivity | exact R].
Qed.

(** C10: a rule whose type is none of [stat_match], [regex_match],
    [text_match] never matches, and the step fails when it reaches it. *)
Theorem unknown_rule_type_fails (content : pystr) (rule : content_rule) :
  rule_type rule <> py "stat_match" ->
  rule_type rule <> py "regex_match" ->
  rule_type rule <> py "text_match" ->
  (forall lines, rule_matched content lines rule = Ok false)
  /\ (forall cfg passed rest,
        content_rules cfg = passed ++ rule :: rest ->
        Forall (fun r => rule_matched content (split_lines content) r
                         = Ok true) passed ->
        result (verify_content_accuracy content cfg) = Ok false).
Proof.
  intros S R T.
  assert (U : forall lines, rule_matched content lines rule = Ok false).
  { intros lines. unfold rule_matched.
    apply eqb_neq in S, R, T. rewrite S, R, T. reflexivity. }
  split; [exact U|].
  intros cfg passed rest E P.
  rewrite (verify_content_accuracy_stops content cfg passed rule rest
             E P (U _)).
  reflexivity.
Qed.

End ContentAccuracy.

(** *** The content-accuracy step on the sample data *)

Ltac differ := let E := fresh in intros E; vm_compute in E; discriminate E.

(** C1, as stated, fails: the first line with the label reads 200, a later
    line reads 158, and the rule expecting 158 matches all the same. *)
Lemma stat_match_first_label_line_counterexample :
  find (contains (target Samples.total_rule)) (split_lines Samples.two_totals)
  = Some (py "total: 200")
  /\ first_digit_run (py "total: 200") = Some (py "200")
  /\ py "200" <> py_str (expected Samples.total_rule)
  /\ rule_matched (RE := Reference.literal_engine) Samples.two_totals
       (split_lines Samples.two_totals) Samples.total_rule = Ok true
  /\ result (verify_content_accuracy (RE := Reference.literal_engine)
               Samples.two_totals (Samples.config_with [Samples.total_rule]))
     = Ok true.
Proof.
  split; [vm_compute; reflexivity|].
  split; [vm_compute; reflexivity|].
  split; [differ|].
  split; vm_compute; reflexivity.
Qed.

Lemma stat_match_some_qualifying_line_witness :
  qualifies (py "total:") (py "158") (py "total: 158")
  /\ stat_scan (py "total:") (py "158")
       ([py "total: 200"] ++ py "total: 158" :: [py "total: 7"]) = true.
Proof.
  assert (Q : qualifies (py "total:") (py "158") (py "total: 158")).
  { split; [apply contains_spec|]; vm_compute; reflexivity. }
  split; [exact Q|].
  exact (proj2 (proj2 (stat_match_some_qualifying_line
                         (RE := Reference.literal_engine)
                         Samples.two_totals (py "total:") (VStr (py "158"))))
           [py "total: 200"] (py "total: 158") [py "total: 7"] Q).
Defined.

(** The scenarios of the specification: the report that counts 158 commits
    passes the rule, the report that counts 200 fails it. *)
Example count_158_passes :
  rule_matched (RE := Reference.literal_engine) (Samples.report "158")
    (split_lines (Samples.report "158")) Samples.count_rule = Ok true.
Proof. vm_compute; reflexivity. Qed.

Example count_200_fails :
  rule_matched (RE := Reference.literal_engine) (Samples.report "200")
    (split_lines (Samples.report "200")) Samples.count_rule = Ok false.
Proof. vm_compute; reflexivity. Qed.

(** A rule that would raise is not reached after a failing rule ... *)
Lemma content_accuracy_fail_fast_witness :
  verify_content_accuracy (RE := Reference.literal_engine)
    (Samples.report "200")
    (Samples.config_with [Samples.count_rule; Samples.broken_rule])
  = ([Print Stdout (LStep3 2);
      Print Stderr (LRuleFailed (py "分析的提交总数：") (py "158"))],
     Ok false).
Proof.
  exact (proj2 (content_accuracy_fail_fast (RE := Reference.literal_engine)
                  (Samples.report "200")
                  (Samples.config_with
                     [Samples.count_rule; Samples.broken_rule]))
           [] Samples.count_rule [Samples.broken_rule]
           eq_refl (Forall_nil _) count_200_fails).
Defined.

(** ... and raises when it is reached. *)
Example broken_rule_raises :
  verify_content_accuracy (RE := Reference.literal_engine)
    (Samples.report "158")
    (Samples.config_with [Samples.count_rule; Samples.broken_rule])
  = ([Print Stdout (LStep3 2)], Raise ReError).
Proof. vm_compute; reflexivity. Qed.

(** A text that spans two lines is found, though no line holds it. *)
Example text_match_across_lines :
  rule_matched (RE := Reference.literal_engine) Samples.two_totals
    (split_lines Samples.two_totals)
    (text_match (py "span") (py "200" ++ [LF] ++ py "total"))
  = Ok true
  /\ existsb (contains (py "200" ++ [LF] ++ py "total"))
       (split_lines Samples.two_totals) = false.
Proof. split; vm_compute; reflexivity. Qed.

Lemma target_only_diagnostic_witness :
  result (verify_content_accuracy (RE := Reference.literal_engine)
            (Samples.report "158")
            (Samples.config_with
               [regex_match (py "共同创作者邮箱") (py "noreply@anthropic\.com")]))
  = result (verify_content_accuracy (RE := Reference.literal_engine)
              (Samples.report "158")
              (Samples.config_with
                 [regex_match (py "mail") (py "noreply@anthropic\.com")])).
Proof.
  apply (target_only_diagnostic (RE := Reference.literal_engine)).
  constructor; [|constructor].
  split; [reflexivity|]. split; [reflexivity|]. left. reflexivity.
Defined.

Lemma unknown_rule_type_fails_witness :
  rule_matched (RE := Reference.literal_engine) Samples.two_totals
    (split_lines Samples.two_totals) Samples.fuzzy_rule = Ok false
  /\ result (verify_content_accuracy (RE := Reference.literal_engine)
               Samples.two_totals
               (Samples.config_with [Samples.total_rule; Samples.fuzzy_rule]))
     = Ok false.
Proof.
  destruct (unknown_rule_type_fails (RE := Reference.literal_engine)
              Samples.two_totals Samples.fuzzy_rule) as [U F];
    [differ | differ | differ |].
  split; [apply U|].
  apply (F _ [Samples.total_rule] []); [reflexivity|].
  constructor; [vm_compute; reflexivity | constructor].
Defined.

(* ------------------------------------------------------------------ *)
(** ** The structure step *)

Lemma missing_structures_filter (content : pystr) (required : list pystr) :
  missing_structures content required
  = filter (fun s => negb (contains s content)) required.
Proof.
  induction required as [|s required IH]; simpl; [reflexivity|].
  rewrite IH. reflexivity.
Qed.

Lemma missing_structures_absent (content : pystr) (required : list pystr)
    (s : pystr) :
  In s (missing_structures content required)
  <-> In s required /\ ~ occurs_in s content.
Proof.
  rewrite missing_structures_filter, filter_In, negb_true_iff, contains_false.
  reflexivity.
Qed.

Lemma missing_structures_nil (content : pystr) (required : list pystr) :
  missing_structures content required = []
  <-> forall s, In s required -> occurs_in s content.
Proof.
  split.
  - intros E s I.
    destruct (contains s content) eqn:C; [apply contains_spec; exact C|].
    assert (M : In s (missing_structures content required))
      by (apply missing_structures_absent; split;
          [exact I | apply contains_false; exact C]).
    rewrite E in M. destruct M.
  - intros H. destruct (missing_structures content required) as [|s l] eqn:E;
      [reflexivity|].
    assert (M : In s (missing_structures content required))
      by (rewrite E; left; reflexivity).
    apply missing_structures_absent in M. destruct M as [I A].
    destruct (A (H s I)).
Qed.

(** C2: the structure check passes if and only if every required
    substring occurs in the content; otherwise it fails and its one
    diagnostic line lists the absent substrings, all of them and only them,
    in the order of the configuration. *)
Theorem structure_check_reports_missing (content : pystr) (cfg : config) :
  (result (verify_file_structure content cfg) = Ok true
   <-> forall s, In s (required_structures cfg) -> occurs_in s content)
  /\ (result (verify_file_structure content cfg) = Ok false
      <-> exists s, In s (required_structures cfg) /\ ~ occurs_in s content)
  /\ (result (verify_file_structure content cfg) = Ok false ->
      printed Stderr (trace (verify_file_structure content cfg))
      = [LMissing
           (join (py ", ")
              (filter (fun s => negb (contains s content))
                      (required_structures cfg)))])
  /\ (forall s,
        In s (filter (fun s => negb (contains s content))
                     (required_structures cfg))
        <-> In s (required_structures cfg) /\ ~ occurs_in s content).
Proof.
  pose proof (missing_structures_nil content (required_structures cfg)) as N.
  pose proof (missing_structures_absent content (required_structures cfg))
    as A.
  rewrite <- missing_structures_filter.
  unfold verify_file_structure.
  destruct (missing_structures content (required_structures cfg))
    as [|m ms] eqn:E; simpl.
  - split; [|split; [|split]].
    + split; [intros _; apply N; reflexivity | reflexivity].
    + split; [discriminate|].
      intros [s [I O]]. destruct O. apply N; [reflexivity | exact I].
    + discriminate.
    + exact A.
  - split; [|split; [|split]].
    + split; [discriminate|]. intros H. apply N in H. discriminate.
    + split; [|reflexivity].
      intros _. exists m. apply (A m). left. reflexivity.
    + reflexivity.
    + exact A.
Qed.

(** The three structures of [VERIFICATION_CONFIG] against a file that has
    only the table header. *)
Example structure_two_missing :
  verify_file_structure (py "| Developer | GitHub Username |")
    VERIFICATION_CONFIG
  = ([Print Stdout (LStep2 3);
      Print Stderr (LMissing (py "# Claude AI 协作分析, ## 汇总统计"))],
     Ok false).
Proof. vm_compute; reflexivity. Qed.

(* ------------------------------------------------------------------ *)
(** ** Traces *)

Lemma steps_app (t t' : list event) : steps (t ++ t') = steps t ++ steps t'.
Proof.
  induction t as [|e t IH]; [reflexivity|].
  destruct e as [to l|url hdrs]; [|exact IH].
  destruct l; simpl; rewrite ?IH; reflexivity.
Qed.

Lemma requests_app (t t' : list event) :
  requests (t ++ t') = requests t ++ requests t'.
Proof. apply filter_app. Qed.

Lemma printed_app (to : stream) (t t' : list event) :
  printed to (t ++ t') = printed to t ++ printed to t'.
Proof.
  induction t as [|e t IH]; [reflexivity|].
  destruct e as [s l|url hdrs]; [|exact IH].
  destruct s, to; simpl; rewrite IH; reflexivity.
Qed.

Lemma bind_trace {A B} (m : M A) (f : A -> M B) (a : A) :
  result m = Ok a ->
  bind m f = (trace m ++ trace (f a), result (f a)).
Proof.
  destruct m as [t r]. simpl. intros ->. simpl.
  destruct (f a). reflexivity.
Qed.

Lemma bind_raise {A B} (m : M A) (f : A -> M B) (e : exn) :
  result m = Raise e -> bind m f = (trace m, Raise e).
Proof. destruct m as [t r]. simpl. intros ->. reflexivity. Qed.

Lemma M_eta {A} (m : M A) : m = (trace m, result m).
Proof. destruct m; reflexivity. Qed.

(* ------------------------------------------------------------------ *)
(** ** The API layer *)

Section Api.

Context {RE : RegexEngine} {CD : Codec}.
Variable w : World.

(** One call is one request; it never raises, and it succeeds exactly when
    the API answers. *)
Lemma call_github_api_spec (endpoint : pystr) (hdrs : headers)
    (org repo : pystr) :
  exists logs,
    call_github_api w endpoint hdrs org repo
    = (HttpGet (api_url org repo endpoint) hdrs :: logs,
       Ok (match api_answer w (api_url org repo endpoint) hdrs with
           | Some j => (true, j)
           | None => (false, JNull)
           end))
    /\ requests logs = [] /\ steps logs = [].
Proof.
  unfold call_github_api, api_answer. fold (api_url org repo endpoint).
  destruct (http_get w (api_url org repo endpoint) hdrs)
    as [status [j|]|]; simpl.
  - destruct (Z.eqb status 200); simpl.
    + exists []. auto.
    + destruct (Z.eqb status 404); simpl; eexists; split;
        try reflexivity; auto.
  - destruct (Z.eqb status 200); simpl.
    + eexists; split; try reflexivity; auto.
    + destruct (Z.eqb status 404); simpl; eexists; split;
        try reflexivity; auto.
  - eexists; split; try reflexivity; auto.
Qed.

(** What the fetch makes of an answer. *)
Lemma get_repo_file_content_spec (file_path : pystr) (hdrs : headers)
    (org repo branch : pystr) :
  exists logs,
    get_repo_file_content w file_path hdrs org repo branch
    = (HttpGet (api_url org repo (contents_endpoint file_path branch)) hdrs
         :: logs,
       Ok (match api_answer w
                   (api_url org repo (contents_endpoint file_path branch))
                   hdrs with
           | Some j =>
               if truthy j then
                 match decode_content j with
                 | Ok s => Some s
                 | Raise _ => None
                 end
               else None
           | None => None
           end))
    /\ requests logs = [] /\ steps logs = [].
Proof.
  unfold get_repo_file_content. fold (contents_endpoint file_path branch).
  destruct (call_github_api_spec (contents_endpoint file_path branch)
              hdrs org repo) as [logs [E [R S]]].
  rewrite E.
  destruct (api_answer w _ hdrs) as [j|]; simpl.
  - destruct (truthy j); simpl.
    + destruct (decode_content j) as [s|e]; simpl.
      * exists logs. rewrite app_nil_r. auto.
      * exists (logs ++ [Print Stderr (LDecodeError file_path e)]).
        rewrite requests_app, steps_app, R, S. auto.
    + exists logs. rewrite app_nil_r. auto.
  - exists logs. rewrite app_nil_r. auto.
Qed.

(** The existence step follows the fetched content. *)
Lemma verify_file_existence_spec (cfg : config) (hdrs : headers)
    (org repo : pystr) :
  exists fetched,
    result (get_repo_file_content w (path (target_file cfg)) hdrs org repo
              (branch (target_file cfg))) = Ok fetched
    /\ result (verify_file_existence w cfg hdrs org repo)
       = Ok (match fetched with
             | Some (c :: s) => (true, Some (c :: s))
             | _ => (false, None)
             end)
    /\ steps (trace (verify_file_existence w cfg hdrs org repo)) = [1]
    /\ requests (trace (verify_file_existence w cfg hdrs org repo))
       = [HttpGet (api_url org repo
                     (contents_endpoint (path (target_file cfg))
                                        (branch (target_file cfg)))) hdrs].
Proof.
  unfold verify_file_existence.
  destruct (get_repo_file_content_spec (path (target_file cfg)) hdrs org repo
              (branch (target_file cfg))) as [logs [E [R S]]].
  rewrite E. eexists. split; [reflexivity|].
  match goal with |- context [Ok ?x] => generalize x end.
  intros [[|c s]|]; simpl; rewrite ?steps_app, ?requests_app, ?R, ?S; auto.
Qed.

End Api.

(* ------------------------------------------------------------------ *)
(** ** The existence step *)

Section Existence.

Context {RE : RegexEngine} {CD : Codec}.
Variables (w : World) (cfg : config) (hdrs : headers) (org repo : pystr).

Local Abbreviation url :=
  (api_url org repo
     (contents_endpoint (path (target_file cfg)) (branch (target_file cfg)))).
Local Abbreviation fetch :=
  (get_repo_file_content w (path (target_file cfg)) hdrs org repo
     (branch (target_file cfg))).
Local Abbreviation step := (verify_file_existence w cfg hdrs org repo).

Lemma fetch_result :
  result fetch
  = Ok (match api_answer w url hdrs with
        | Some j =>
            if truthy j then
              match decode_content j with
              | Ok s => Some s
              | Raise _ => None
              end
            else None
        | None => None
        end).
Proof.
  destruct (get_repo_file_content_spec w (path (target_file cfg)) hdrs org
              repo (branch (target_file cfg))) as [logs [E _]].
  rewrite E. reflexivity.
Qed.

Lemma decode_content_field (kv : list (pystr * json)) (s : pystr) :
  lookup (py "content") kv = Some (JStr s) ->
  decode_content (JObj kv) = obind (b64decode s) utf8_decode.
Proof. unfold decode_content. simpl. intros ->. reflexivity. Qed.

Lemma decode_content_no_field (kv : list (pystr * json)) :
  lookup (py "content") kv = None -> decode_content (JObj kv) = Ok [].
Proof.
  unfold decode_content. simpl. intros ->. simpl.
  rewrite b64decode_empty. simpl. apply utf8_decode_empty.
Qed.

Lemma lookup_some_truthy (key : pystr) (kv : list (pystr * json)) (v : json) :
  lookup key kv = Some v -> truthy (JObj kv) = true.
Proof. destruct kv; [discriminate | reflexivity]. Qed.

(** C5: the existence step fails exactly when the fetched content is absent
    or empty.  A failed call, an answer without a content field and a
    base64 or UTF-8 decoding failure all leave the fetch without content
    (absent, or empty for the missing field) and fail the step; when the
    decoded content is not empty the step succeeds and returns it. *)
Theorem existence_step_fails_when_absent :
  (exists fetched,
     result fetch = Ok fetched
     /\ (result step = Ok (false, None)
         <-> fetched = None \/ fetched = Some [])
     /\ (forall content,
           result step = Ok (true, Some content)
           <-> fetched = Some content /\ content <> [])
     /\ (result step = Ok (false, None)
         \/ exists content, result step = Ok (true, Some content)))
  /\ (api_answer w url hdrs = None -> result fetch = Ok None)
  /\ (forall kv,
        api_answer w url hdrs = Some (JObj kv) ->
        lookup (py "content") kv = None ->
        result fetch = Ok None \/ result fetch = Ok (Some []))
  /\ (forall kv s e,
        api_answer w url hdrs = Some (JObj kv) ->
        lookup (py "content") kv = Some (JStr s) ->
        b64decode s = Raise e
        \/ (exists raw, b64decode s = Ok raw /\ utf8_decode raw = Raise e) ->
        result fetch = Ok None)
  /\ (forall kv s raw content,
        api_answer w url hdrs = Some (JObj kv) ->
        lookup (py "content") kv = Some (JStr s) ->
        b64decode s = Ok raw ->
        utf8_decode raw = Ok content ->
        content <> [] ->
        result step = Ok (true, Some content)).
Proof.
  destruct (verify_file_existence_spec w cfg hdrs org repo)
    as [fetched [F [S _]]].
  split; [|split; [|split; [|split]]].
  - exists fetched. split; [exact F|]. rewrite S. clear S F.
    destruct fetched as [[|c s]|].
    + split; [|split].
      * split; [intros _; right; reflexivity | reflexivity].
      * intros content. split; [discriminate|].
        intros [E N]. injection E as <-. congruence.
      * left; reflexivity.
    + split; [|split].
      * split; [discriminate | intros [E|E]; discriminate].
      * intros content. split.
        -- intros E. injection E as <-. split; [reflexivity | discriminate].
        -- intros [E _]. injection E as <-. reflexivity.
      * right. eexists; reflexivity.
    + split; [|split].
      * split; [intros _; left; reflexivity | reflexivity].
      * intros content. split; [discriminate | intros [E _]; discriminate].
      * left; reflexivity.
  - intros A. rewrite fetch_result, A. reflexivity.
  - intros kv A L. rewrite fetch_result, A.
    destruct kv as [|b kv]; [left; reflexivity|].
    right. rewrite (decode_content_no_field _ L). reflexivity.
  - intros kv s e A L D. rewrite fetch_result, A.
    rewrite (lookup_some_truthy _ _ _ L), (decode_content_field _ _ L).
    destruct D as [D|[raw [D U]]]; rewrite D; simpl; [|rewrite U];
      reflexivity.
  - intros kv s raw content A L D U N.
    rewrite fetch_result, A in F.
    rewrite (lookup_some_truthy _ _ _ L), (decode_content_field _ _ L) in F.
    rewrite D in F. simpl in F. rewrite U in F.
    injection F as <-. rewrite S.
    destruct content; [congruence | reflexivity].
Qed.

End Existence.

(** *** The existence step on the sample data *)

Lemma existence_step_fails_when_absent_witness :
  result (verify_file_existence (CD := Reference.cpython_codec)
            Samples.good_world
            VERIFICATION_CONFIG (build_headers (py "ghp_token"))
            (py "anthropics") (py "claude-code"))
  = Ok (true, Some (Samples.report "158")).
Proof.
  refine (proj2 (proj2 (proj2 (proj2
            (existence_step_fails_when_absent
               (CD := Reference.cpython_codec) Samples.good_world
               VERIFICATION_CONFIG (build_headers (py "ghp_token"))
               (py "anthropics") (py "claude-code")))))
            _ Samples.report_158_base64 _ (Samples.report "158")
            _ _ _ _ _).
  - vm_compute; reflexivity.
  - vm_compute; reflexivity.
  - vm_compute; reflexivity.
  - vm_compute; reflexivity.
  - differ.
Defined.

(** The scenario of the specification: the API answers 404. *)
Example file_not_found :
  main (RE := Reference.literal_engine) (CD := Reference.cpython_codec)
    Samples.empty_world VERIFICATION_CONFIG
  = (banner ++
     [ Print Stdout (LEnvReady (py "anthropics") (py "claude-code"));
       Print Stdout (LStep1 (py "CLAUDE_COLLABORATION_ANALYSIS.md") (py "main"));
       HttpGet Samples.contents_url (build_headers (py "ghp_token"));
       Print Stderr
         (LApiNotFound
            (py "contents/CLAUDE_COLLABORATION_ANALYSIS.md?ref=main"));
       Print Stderr
         (LFileNotFound (py "CLAUDE_COLLABORATION_ANALYSIS.md") (py "main")) ],
     1%Z).
Proof. vm_compute; reflexivity. Qed.

(* ------------------------------------------------------------------ *)
(** ** Decimal numerals *)

Lemma utf8_code_points_ascii (c : char) (l : list N) :
  N.ltb c 128 = true ->
  utf8_code_points (c :: l) = option_map (cons c) (utf8_code_points l).
Proof. intros H. simpl. rewrite H. reflexivity. Qed.

Lemma string_of_uint_chars (d : Decimal.uint) :
  map N_of_ascii (list_ascii_of_string (NilEmpty.string_of_uint d))
  = uint_chars d.
Proof. induction d; simpl; rewrite ?IHd; reflexivity. Qed.

Lemma utf8_code_points_uint_chars (d : Decimal.uint) :
  utf8_code_points (uint_chars d) = Some (uint_chars d).
Proof.
  induction d; [reflexivity|..];
    cbn [uint_chars]; rewrite utf8_code_points_ascii by reflexivity;
    rewrite IHd; reflexivity.
Qed.

Lemma numeral_value_acc (d : Decimal.uint) (acc : positive) :
  numeral_value (Z.pos acc) (uint_chars d)
  = Some (Z.pos (Pos.of_uint_acc d acc)).
Proof.
  revert acc. induction d; intros acc; [reflexivity|..];
    cbn [uint_chars numeral_value];
    match goal with
    | |- context [digit_value ?c] =>
        let v := eval vm_compute in (digit_value c) in
        change (digit_value c) with v
    end;
    cbn iota; cbn [Pos.of_uint_acc]; rewrite <- IHd; f_equal; lia.
Qed.

Lemma numeral_value_of_uint (d : Decimal.uint) :
  numeral_value 0 (uint_chars d) = Some (Z.of_N (Pos.of_uint d)).
Proof.
  induction d; [reflexivity|..];
    cbn [uint_chars numeral_value];
    match goal with
    | |- context [digit_value ?c] =>
        let v := eval vm_compute in (digit_value c) in
        change (digit_value c) with v
    end;
    cbn iota; cbn [Pos.of_uint];
    [exact IHd | apply (numeral_value_acc d) ..].
Qed.

Lemma str_of_int_positive (p : positive) :
  py (NilZero.string_of_uint (Pos.to_uint p)) = uint_chars (Pos.to_uint p)
  /\ uint_chars (Pos.to_uint p) <> []
  /\ decimal_value (uint_chars (Pos.to_uint p)) = Some (Z.pos p).
Proof.
  pose proof (Unsigned.to_uint_nonnil p) as NN.
  pose proof (Unsigned.of_to p) as OT.
  pose proof (numeral_value_of_uint (Pos.to_uint p)) as V.
  rewrite OT in V.
  assert (S : NilZero.string_of_uint (Pos.to_uint p)
              = NilEmpty.string_of_uint (Pos.to_uint p))
    by (destruct (Pos.to_uint p); [congruence | reflexivity ..]).
  split; [|split].
  - unfold py. rewrite S, string_of_uint_chars, utf8_code_points_uint_chars.
    reflexivity.
  - destruct (Pos.to_uint p); [congruence | discriminate ..].
  - destruct (Pos.to_uint p); [congruence | exact V ..].
Qed.

(** [str(n)] is a decimal numeral that stands for [n]. *)
Lemma str_of_int_value (z : Z) : decimal_value (str_of_int z) = Some z.
Proof.
  destruct z as [|p|p].
  - reflexivity.
  - unfold str_of_int. cbn [Z.to_int NilZero.string_of_int].
    destruct (str_of_int_positive p) as [E [_ V]]. rewrite E. exact V.
  - unfold str_of_int. cbn [Z.to_int NilZero.string_of_int].
    destruct (str_of_int_positive p) as [E [NE V]].
    assert (P : py (String "-" (NilZero.string_of_uint (Pos.to_uint p)))
                = 45%N :: uint_chars (Pos.to_uint p)).
    { unfold py in *. cbn [list_ascii_of_string map].
      change (N_of_ascii "-") with 45%N.
      rewrite utf8_code_points_ascii by reflexivity.
      destruct (utf8_code_points
                  (map N_of_ascii
                     (list_ascii_of_string
                        (NilZero.string_of_uint (Pos.to_uint p)))))
        as [l|]; simpl.
      - rewrite E. reflexivity.
      - congruence. }
    rewrite P. cbn [decimal_value]. change (N.eqb 45 45) with true. cbn iota.
    destruct (uint_chars (Pos.to_uint p)) as [|c r] eqn:U; [congruence|].
    assert (W : numeral_value 0 (c :: r) = Some (Z.pos p)).
    { cbn [decimal_value] in V. destruct (N.eqb c 45) eqn:C; [|exact V].
      exfalso. apply N.eqb_eq in C. subst c.
      destruct (Pos.to_uint p); cbn [uint_chars] in U; discriminate U. }
    rewrite W. reflexivity.
Qed.

Lemma carries_message_ok (commit : json) (message : pystr) :
  carries_message commit message -> commit_message commit = Ok message.
Proof.
  intros [fields [inner [-> [C M]]]]. unfold commit_message. simpl.
  rewrite C. simpl. rewrite M. reflexivity.
Qed.

(* ------------------------------------------------------------------ *)
(** ** The commit-record step *)

Section CommitRecord.

Context {RE : RegexEngine} {CD : Codec}.
Variables (w : World) (hdrs : headers) (org repo : pystr).

(** On commits that all carry a message, the loop is a search. *)
Lemma scan_commits_messages (p : pattern) (commits : list json)
    (msgs : list pystr) :
  Forall2 (fun c m => commit_message c = Ok m) commits msgs ->
  scan_commits p commits = Ok (existsb (pattern_search p) msgs).
Proof.
  induction 1 as [|c m commits msgs C _ IH]; [reflexivity|].
  simpl. rewrite C. simpl.
  destruct (pattern_search p m); [reflexivity | exact IH].
Qed.

(** The loop leaves at the first message that matches; what follows it is
    not looked at. *)
Lemma scan_commits_first_match (p : pattern) (before : list json)
    (msgs : list pystr) (c : json) (m : pystr) (after : list json) :
  Forall2 (fun c m => commit_message c = Ok m) before msgs ->
  existsb (pattern_search p) msgs = false ->
  commit_message c = Ok m ->
  pattern_search p m = true ->
  scan_commits p (before ++ c :: after) = Ok true.
Proof.
  induction 1 as [|c0 m0 before msgs C _ IH]; simpl.
  - intros _ C S. rewrite C. simpl. rewrite S. reflexivity.
  - intros N Cm S. apply orb_false_iff in N. destruct N as [N0 N].
    rewrite C. simpl. rewrite N0. apply IH; assumption.
Qed.

Lemma search_commits_spec (commit_msg_pattern : pystr) (limit : Z) :
  exists logs,
    search_commits w hdrs org repo commit_msg_pattern limit
    = (HttpGet (api_url org repo (commits_endpoint limit)) hdrs :: logs,
       match api_answer w (api_url org repo (commits_endpoint limit)) hdrs with
       | None => Ok false
       | Some commits =>
           match re_compile true commit_msg_pattern with
           | None => Raise ReError
           | Some p => obind (iterate commits) (scan_commits p)
           end
       end)
    /\ requests logs = [] /\ steps logs = [].
Proof.
  unfold search_commits. fold (commits_endpoint limit).
  destruct (call_github_api_spec w (commits_endpoint limit) hdrs org repo)
    as [logs [E [R S]]].
  rewrite E. exists logs.
  destruct (api_answer w _ hdrs) as [j|]; simpl; rewrite app_nil_r; auto.
Qed.

Lemma verify_commit_record_spec (cfg : config) (rule : commit_rule) :
  commit_verification cfg = Some rule ->
  result (verify_commit_record w cfg hdrs org repo)
  = result (search_commits w hdrs org repo (msg_pattern rule)
              (commit_limit rule))
  /\ requests (trace (verify_commit_record w cfg hdrs org repo))
     = [HttpGet (api_url org repo (commits_endpoint (commit_limit rule))) hdrs].
Proof.
  intros C. unfold verify_commit_record. rewrite C.
  fold (commit_limit rule).
  destruct (search_commits_spec (msg_pattern rule) (commit_limit rule))
    as [logs [E [R S]]].
  rewrite E.
  match goal with |- context [(_ :: logs, ?r)] => destruct r as [[|]|e] end;
    simpl; rewrite ?requests_app, ?R; auto.
Qed.

Lemma verify_commit_record_steps (cfg : config) :
  steps (trace (verify_commit_record w cfg hdrs org repo)) = [4].
Proof.
  unfold verify_commit_record.
  destruct (commit_verification cfg) as [rule|]; [|reflexivity].
  destruct (search_commits_spec (msg_pattern rule)
              (match max_commits rule with Some n => n | None => 10%Z end))
    as [logs [E [R S]]].
  rewrite E.
  match goal with |- context [(_ :: logs, ?r)] => destruct r as [[|]|e] end;
    simpl; rewrite ?steps_app, ?S; auto.
Qed.

Lemma Forall2_firstn {A B} (R : A -> B -> Prop) (n : nat) (l : list A)
    (l' : list B) :
  Forall2 R l l' -> Forall2 R (firstn n l) (firstn n l').
Proof.
  intros H. revert n. induction H; intros [|n]; simpl; constructor; auto.
Qed.

Local Abbreviation commits_request digits :=
  (api_url org repo (py "commits?per_page=" ++ digits)).

(** C4: the step sends one request, for [commits?per_page=N] with [N] the
    configured maximum (10 by default) written as a decimal numeral.  It
    fails when that call fails.  On the commits returned it searches, in
    the order returned, the string each commit object holds under
    ["commit"]["message"], with the pattern compiled case-insensitively,
    and succeeds exactly when one of them matches, leaving at the first
    match.  With an API that returns the [N] most recent commits, a commit
    further back is never found. *)
Theorem commit_record_within_limit (cfg : config) (rule : commit_rule) :
  commit_verification cfg = Some rule ->
  exists digits,
    decimal_value digits = Some (commit_limit rule)
    /\ requests (trace (verify_commit_record w cfg hdrs org repo))
       = [HttpGet (commits_request digits) hdrs]
    /\ (api_answer w (commits_request digits) hdrs = None ->
        result (verify_commit_record w cfg hdrs org repo) = Ok false)
    /\ (forall p returned msgs,
          re_compile true (msg_pattern rule) = Some p ->
          api_answer w (commits_request digits) hdrs = Some (JArr returned) ->
          Forall2 carries_message returned msgs ->
          result (verify_commit_record w cfg hdrs org repo)
          = Ok (existsb (pattern_search p) msgs))
    /\ (forall p before msgs c m after,
          re_compile true (msg_pattern rule) = Some p ->
          api_answer w (commits_request digits) hdrs
          = Some (JArr (before ++ c :: after)) ->
          Forall2 carries_message before msgs ->
          existsb (pattern_search p) msgs = false ->
          carries_message c m ->
          pattern_search p m = true ->
          result (verify_commit_record w cfg hdrs org repo) = Ok true)
    /\ (forall p history msgs,
          re_compile true (msg_pattern rule) = Some p ->
          api_answer w (commits_request digits) hdrs
          = Some (JArr (firstn (Z.to_nat (commit_limit rule)) history)) ->
          Forall2 carries_message history msgs ->
          result (verify_commit_record w cfg hdrs org repo)
          = Ok (existsb (pattern_search p)
                  (firstn (Z.to_nat (commit_limit rule)) msgs))).
Proof.
  intros C. exists (str_of_int (commit_limit rule)).
  split; [apply str_of_int_value|].
  change (api_url org repo
            (py "commits?per_page=" ++ str_of_int (commit_limit rule)))
    with (api_url org repo (commits_endpoint (commit_limit rule))).
  destruct (verify_commit_record_spec cfg rule C) as [R Q].
  destruct (search_commits_spec (msg_pattern rule) (commit_limit rule))
    as [logs [E _]].
  rewrite E in R. simpl in R. rewrite R.
  assert (I : forall l ms,
            Forall2 carries_message l ms ->
            Forall2 (fun c m => commit_message c = Ok m) l ms)
    by (intros l ms; apply Forall2_impl; exact carries_message_ok).
  split; [exact Q|]. split; [|split; [|split]].
  - intros ->. reflexivity.
  - intros p returned msgs P -> W. rewrite P. simpl.
    apply scan_commits_messages. apply I. exact W.
  - intros p before msgs c m after P -> W N Cm S. rewrite P. simpl.
    apply (scan_commits_first_match p before msgs c m after);
      [apply I | | apply carries_message_ok |]; assumption.
  - intros p history msgs P -> W. rewrite P. simpl.
    apply scan_commits_messages. apply Forall2_firstn. apply I. exact W.
Qed.

End CommitRecord.

(** *** The commit-record step on the sample data *)

Lemma commit_json_carries (message : pystr) :
  carries_message (Samples.commit_json message) message.
Proof.
  exists [ (py "sha", JStr (py "0000000"));
           (py "commit", JObj [ (py "message", JStr message) ]) ],
         [ (py "message", JStr message) ].
  split; [reflexivity|]. split; reflexivity.
Qed.

(** The second commit of the sample history qualifies, in other letter
    case.  Asked for two commits the step requests [per_page=2] and finds
    it; asked for one, the API returns the first only, and the step
    fails. *)
Lemma commit_record_within_limit_witness :
  requests (trace (verify_commit_record (RE := Reference.literal_engine)
                     Samples.paged_world (Samples.limited_config 2)
                     (build_headers (py "ghp_token")) (py "anthropics")
                     (py "claude-code")))
  = [HttpGet (Samples.commits_url "2") (build_headers (py "ghp_token"))]
  /\ result (verify_commit_record (RE := Reference.literal_engine)
               Samples.paged_world (Samples.limited_config 2)
               (build_headers (py "ghp_token")) (py "anthropics")
               (py "claude-code"))
     = Ok true
  /\ result (verify_commit_record (RE := Reference.literal_engine)
               Samples.paged_world (Samples.limited_config 1)
               (build_headers (py "ghp_token")) (py "anthropics")
               (py "claude-code"))
     = Ok false.
Proof.
  destruct (commit_record_within_limit (RE := Reference.literal_engine)
              Samples.paged_world (build_headers (py "ghp_token"))
              (py "anthropics") (py "claude-code")
              (Samples.limited_config 2) (Samples.limited_rule 2) eq_refl)
    as [two [_ [Q2 [_ [_ [_ H2]]]]]].
  destruct (commit_record_within_limit (RE := Reference.literal_engine)
              Samples.paged_world (build_headers (py "ghp_token"))
              (py "anthropics") (py "claude-code")
              (Samples.limited_config 1) (Samples.limited_rule 1) eq_refl)
    as [one [_ [Q1 [_ [_ [_ H1]]]]]].
  assert (E2 : two = py "2")
    by (vm_compute in Q2; injection Q2 as <-; reflexivity).
  assert (E1 : one = py "1")
    by (vm_compute in Q1; injection Q1 as <-; reflexivity).
  subst two one.
  assert (W : Forall2 carries_message
                (map Samples.commit_json Samples.history) Samples.history)
    by (repeat (constructor; [apply commit_json_carries|]); constructor).
  split; [exact Q2|]. split.
  - rewrite (H2 (true, py "添加 Claude AI 协作分析报告")
               (map Samples.commit_json Samples.history) Samples.history
               eq_refl);
      [vm_compute; reflexivity | vm_compute; reflexivity | exact W].
  - rewrite (H1 (true, py "添加 Claude AI 协作分析报告")
               (map Samples.commit_json Samples.history) Samples.history
               eq_refl);
      [vm_compute; reflexivity | vm_compute; reflexivity | exact W].
Defined.

(** Asked for two commits, the step finds it, whatever the case of the
    letters. *)
Example commit_found_within_two :
  result (verify_commit_record (RE := Reference.literal_engine)
            Samples.paged_world (Samples.limited_config 2)
            (build_headers (py "ghp_token")) (py "anthropics")
            (py "claude-code"))
  = Ok true.
Proof. vm_compute; reflexivity. Qed.

(* ------------------------------------------------------------------ *)
(** ** The orchestrator *)

Lemma bind_print {B} (l : log_line) (k : M B) :
  bind (print l) (fun _ => k) = (Print Stdout l :: trace k, result k).
Proof. unfold bind, print, emit. destruct k. reflexivity. Qed.

Lemma bind_ok {A B} (m : M A) (f : A -> M B) (a : A) :
  result m = Ok a ->
  trace (bind m f) = trace m ++ trace (f a)
  /\ result (bind m f) = result (f a).
Proof. intros H. rewrite (bind_trace m f a H). auto. Qed.

Section Run.

Context {RE : RegexEngine} {CD : Codec}.
Variables (w : World) (cfg : config).

Lemma verify_file_structure_steps (content : pystr) :
  steps (trace (verify_file_structure content cfg)) = [2]
  /\ requests (trace (verify_file_structure content cfg)) = []
  /\ (result (verify_file_structure content cfg) = Ok true
      \/ result (verify_file_structure content cfg) = Ok false).
Proof.
  unfold verify_file_structure.
  destruct (missing_structures content (required_structures cfg)); simpl;
    auto.
Qed.

Lemma check_rules_quiet (content : pystr) (lines : list pystr)
    (rules : list content_rule) :
  steps (trace (check_rules content lines rules)) = []
  /\ requests (trace (check_rules content lines rules)) = [].
Proof.
  induction rules as [|r rules IH]; simpl; [auto|].
  destruct (rule_matched content lines r) as [[|]|e]; simpl; auto.
  destruct (check_rules content lines rules). exact IH.
Qed.

Lemma verify_content_accuracy_steps (content : pystr) :
  steps (trace (verify_content_accuracy content cfg)) = [3]
  /\ requests (trace (verify_content_accuracy content cfg)) = [].
Proof.
  destruct (content_rules cfg) as [|r rs] eqn:E.
  - unfold verify_content_accuracy. rewrite E. simpl. auto.
  - rewrite verify_content_accuracy_rules by congruence.
    destruct (check_rules_quiet content (split_lines content)
                (content_rules cfg)) as [S R].
    destruct (check_rules content (split_lines content) (content_rules cfg)).
    simpl in *. rewrite S, R. auto.
Qed.

(** Without credentials the run ends after one line on the error stream. *)
Lemma run_verification_no_credentials :
  credentials w = None ->
  run_verification w cfg
  = (banner ++
     [Print Stderr (if falsy (env_token w) then LEnvTokenMissing
                    else LEnvOrgMissing)],
     Ok false).
Proof.
  unfold credentials, run_verification, load_env.
  destruct (env_token w) as [[|t ts]|]; try reflexivity.
  destruct (env_org w) as [[|o os]|]; try reflexivity.
  discriminate.
Qed.

(** C6: when GITHUB_TOKEN or GITHUB_ORG is missing the run fails at once:
    it writes the line of the variable found missing (the token is looked
    at first) to the error stream, sends no request, and none of this
    depends on the configuration. *)
Theorem missing_credentials_abort :
  env_token w = None \/ env_org w = None ->
  run_verification w cfg
  = (banner ++
     [Print Stderr (if falsy (env_token w) then LEnvTokenMissing
                    else LEnvOrgMissing)],
     Ok false)
  /\ (env_token w = None ->
      printed Stderr (trace (run_verification w cfg)) = [LEnvTokenMissing])
  /\ (falsy (env_token w) = false ->
      printed Stderr (trace (run_verification w cfg)) = [LEnvOrgMissing])
  /\ LEnvTokenMissing <> LEnvOrgMissing
  /\ requests (trace (run_verification w cfg)) = []
  /\ snd (main w cfg) = 1%Z
  /\ (forall cfg', run_verification w cfg' = run_verification w cfg).
Proof.
  intros H.
  assert (C : credentials w = None).
  { unfold credentials. destruct H as [-> | ->]; [reflexivity|].
    destruct (env_token w) as [[|]|]; reflexivity. }
  assert (I : forall c, run_verification w c
              = (banner ++
                 [Print Stderr (if falsy (env_token w) then LEnvTokenMissing
                                else LEnvOrgMissing)], Ok false)).
  { intros c. unfold credentials, run_verification, load_env.
    unfold credentials in C.
    destruct (env_token w) as [[|t ts]|]; try reflexivity.
    destruct (env_org w) as [[|o os]|]; try reflexivity.
    discriminate. }
  split; [apply I|]. unfold main. rewrite !I. simpl trace.
  split; [intros ->; reflexivity|].
  split; [intros ->; reflexivity|].
  split; [discriminate|].
  split; [reflexivity|]. split; [reflexivity|].
  intros cfg'. rewrite I. reflexivity.
Qed.

Lemma credentials_some (token org : pystr) :
  credentials w = Some (token, org) ->
  env_token w = Some token /\ env_org w = Some org
  /\ token <> [] /\ org <> [].
Proof.
  unfold credentials.
  destruct (env_token w) as [[|t ts]|]; try discriminate.
  destruct (env_org w) as [[|o os]|]; try discriminate.
  intros E. injection E as <- <-. repeat split; discriminate.
Qed.

Local Abbreviation existence token org :=
  (verify_file_existence w cfg (build_headers token) org (target_repo cfg)).
Local Abbreviation structure content := (verify_file_structure content cfg).
Local Abbreviation accuracy content := (verify_content_accuracy content cfg).
Local Abbreviation commits token org :=
  (verify_commit_record w cfg (build_headers token) org (target_repo cfg)).

Ltac enter_run C :=
  let T := fresh in let O := fresh in let NT := fresh in let NO := fresh in
  destruct (credentials_some _ _ C) as [T [O [NT NO]]];
  unfold run_verification, load_env; rewrite T, O;
  match goal with
  | NT : ?token <> [], NO : ?org <> [] |- _ =>
      destruct token; [congruence|]; destruct org; [congruence|]
  end;
  rewrite !bind_print; cbn [trace result fst snd].

Ltac step_run H :=
  match goal with
  | |- context [bind ?m ?f] =>
      let T := fresh in let R := fresh in
      destruct (bind_ok m f _ H) as [T R]; rewrite T, R; clear T R;
      cbn beta iota; cbn [negb]
  end.

Lemma run_halts_at_existence (token org : pystr) (x : option pystr) :
  credentials w = Some (token, org) ->
  result (existence token org) = Ok (false, x) ->
  run_verification w cfg
  = (banner ++ Print Stdout (LEnvReady org (target_repo cfg))
       :: trace (existence token org), Ok false).
Proof.
  intros C E. enter_run C. step_run E.
  cbn [trace result fst snd ret]. rewrite app_nil_r. reflexivity.
Qed.

Lemma run_halts_at_structure (token org content : pystr) :
  credentials w = Some (token, org) ->
  result (existence token org) = Ok (true, Some content) ->
  result (structure content) = Ok false ->
  run_verification w cfg
  = (banner ++ Print Stdout (LEnvReady org (target_repo cfg))
       :: trace (existence token org) ++ trace (structure content),
     Ok false).
Proof.
  intros C E S. enter_run C. step_run E. step_run S.
  cbn [trace result fst snd ret]. rewrite app_nil_r. reflexivity.
Qed.

Lemma run_halts_at_accuracy (token org content : pystr) (r : outcome bool) :
  credentials w = Some (token, org) ->
  result (existence token org) = Ok (true, Some content) ->
  result (structure content) = Ok true ->
  result (accuracy content) = r ->
  r <> Ok true ->
  run_verification w cfg
  = (banner ++ Print Stdout (LEnvReady org (target_repo cfg))
       :: trace (existence token org) ++ trace (structure content)
       ++ trace (accuracy content),
     halted r).
Proof.
  intros C E S A N. enter_run C. step_run E. step_run S.
  destruct r as [[|]|e]; [congruence| |].
  - step_run A. cbn [trace result fst snd ret]. rewrite app_nil_r.
    reflexivity.
  - match goal with
    | |- context [bind ?m ?f] => rewrite (bind_raise m f e A)
    end.
    reflexivity.
Qed.

Lemma run_halts_at_commits (token org content : pystr) (r : outcome bool) :
  credentials w = Some (token, org) ->
  result (existence token org) = Ok (true, Some content) ->
  result (structure content) = Ok true ->
  result (accuracy content) = Ok true ->
  result (commits token org) = r ->
  r <> Ok true ->
  run_verification w cfg
  = (banner ++ Print Stdout (LEnvReady org (target_repo cfg))
       :: trace (existence token org) ++ trace (structure content)
       ++ trace (accuracy content) ++ trace (commits token org),
     halted r).
Proof.
  intros C E S A R N. enter_run C. step_run E. step_run S. step_run A.
  destruct r as [[|]|e]; [congruence| |].
  - step_run R. cbn [trace result fst snd ret]. rewrite app_nil_r.
    reflexivity.
  - match goal with
    | |- context [bind ?m ?f] => rewrite (bind_raise m f e R)
    end.
    reflexivity.
Qed.

Lemma run_passes (token org content : pystr) :
  credentials w = Some (token, org) ->
  result (existence token org) = Ok (true, Some content) ->
  result (structure content) = Ok true ->
  result (accuracy content) = Ok true ->
  result (commits token org) = Ok true ->
  run_verification w cfg
  = (banner ++ Print Stdout (LEnvReady org (target_repo cfg))
       :: trace (existence token org) ++ trace (structure content)
       ++ trace (accuracy content) ++ trace (commits token org)
       ++ [ Print Stdout LRule; Print Stdout LAllPassed;
            Print Stdout (LSummaryFile (path (target_file cfg)));
            Print Stdout (LSummaryRepo org (target_repo cfg));
            Print Stdout LRule ],
     Ok true).
Proof.
  intros C E S A R. enter_run C. step_run E. step_run S. step_run A.
  step_run R. rewrite ?bind_print. cbn [trace result fst snd ret].
  reflexivity.
Qed.

Lemma existence_outcomes (token org : pystr) :
  steps (trace (existence token org)) = [1]
  /\ requests (trace (existence token org))
     = [HttpGet (api_url org (target_repo cfg)
                   (contents_endpoint (path (target_file cfg))
                                      (branch (target_file cfg))))
          (build_headers token)]
  /\ (result (existence token org) = Ok (false, None)
      \/ exists content,
           result (existence token org) = Ok (true, Some content)).
Proof.
  destruct (verify_file_existence_spec w cfg (build_headers token) org
              (target_repo cfg)) as [fetched [_ [R [S Q]]]].
  split; [exact S|]. split; [exact Q|]. rewrite R.
  destruct fetched as [[|c s]|]; [left| right; eexists |left]; reflexivity.
Qed.

Lemma halted_not_true (r : outcome bool) : halted r <> Ok true.
Proof. destruct r as [[|]|e]; discriminate. Qed.

Lemma exit_code_zero (r : outcome bool) : exit_code r = 0%Z <-> r = Ok true.
Proof. destruct r as [[|]|e]; simpl; split; congruence. Qed.

Lemma exit_code_range (r : outcome bool) :
  exit_code r = 0%Z \/ exit_code r = 1%Z.
Proof. destruct r as [[|]|e]; simpl; auto. Qed.

Lemma outcome_true_dec (r : outcome bool) : r = Ok true \/ r <> Ok true.
Proof. destruct r as [[|]|e]; [left; reflexivity | right .. ]; discriminate. Qed.

(** C7: a run goes through Existence, Structure, Content Accuracy and
    Commit Record in this order and stops at the first step that does not
    pass, without starting a later one; the process exits with 0 exactly
    when every step passes, and with 1 otherwise. *)
Theorem run_order_and_exit_code :
  (snd (main w cfg) = 0%Z \/ snd (main w cfg) = 1%Z)
  /\ (snd (main w cfg) = 0%Z <-> all_steps_pass w cfg)
  /\ (exists k, steps (trace (run_verification w cfg))
                = firstn k [1; 2; 3; 4])
  /\ (credentials w = None ->
      steps (trace (run_verification w cfg)) = []
      /\ result (run_verification w cfg) = Ok false)
  /\ (forall token org,
        credentials w = Some (token, org) ->
        (forall x,
           result (existence token org) = Ok (false, x) ->
           steps (trace (run_verification w cfg)) = [1]
           /\ requests (trace (run_verification w cfg))
              = requests (trace (existence token org))
           /\ result (run_verification w cfg) = Ok false)
        /\ (forall content,
              result (existence token org) = Ok (true, Some content) ->
              (result (structure content) = Ok false ->
               steps (trace (run_verification w cfg)) = [1; 2]
               /\ requests (trace (run_verification w cfg))
                  = requests (trace (existence token org))
               /\ result (run_verification w cfg) = Ok false)
              /\ (result (structure content) = Ok true ->
                  (result (accuracy content) <> Ok true ->
                   steps (trace (run_verification w cfg)) = [1; 2; 3]
                   /\ requests (trace (run_verification w cfg))
                      = requests (trace (existence token org))
                   /\ result (run_verification w cfg)
                      = halted (result (accuracy content)))
                  /\ (result (accuracy content) = Ok true ->
                      steps (trace (run_verification w cfg)) = [1; 2; 3; 4]
                      /\ (result (commits token org) <> Ok true ->
                          result (run_verification w cfg)
                          = halted (result (commits token org)))
                      /\ (result (commits token org) = Ok true ->
                          result (run_verification w cfg) = Ok true))))).
Proof.
  (* the scenarios, one by one *)
  assert (Scen : forall token org,
    credentials w = Some (token, org) ->
    (forall x,
       result (existence token org) = Ok (false, x) ->
       steps (trace (run_verification w cfg)) = [1]
       /\ requests (trace (run_verification w cfg))
          = requests (trace (existence token org))
       /\ result (run_verification w cfg) = Ok false)
    /\ (forall content,
          result (existence token org) = Ok (true, Some content) ->
          (result (structure content) = Ok false ->
           steps (trace (run_verification w cfg)) = [1; 2]
           /\ requests (trace (run_verification w cfg))
              = requests (trace (existence token org))
           /\ result (run_verification w cfg) = Ok false)
          /\ (result (structure content) = Ok true ->
              (result (accuracy content) <> Ok true ->
               steps (trace (run_verification w cfg)) = [1; 2; 3]
               /\ requests (trace (run_verification w cfg))
                  = requests (trace (existence token org))
               /\ result (run_verification w cfg)
                  = halted (result (accuracy content)))
              /\ (result (accuracy content) = Ok true ->
                  steps (trace (run_verification w cfg)) = [1; 2; 3; 4]
                  /\ (result (commits token org) <> Ok true ->
                      result (run_verification w cfg)
                      = halted (result (commits token org)))
                  /\ (result (commits token org) = Ok true ->
                      result (run_verification w cfg) = Ok true))))).
  { intros token org C.
    destruct (existence_outcomes token org) as [S1 [Q1 _]].
    split.
    - intros x E. rewrite (run_halts_at_existence token org x C E).
      cbn [trace result fst snd]. unfold banner.
      cbn [app steps requests filter is_http]. rewrite S1. auto.
    - intros content E.
      destruct (verify_file_structure_steps content) as [S2 [Q2 _]].
      destruct (verify_content_accuracy_steps content) as [S3 Q3].
      pose proof (verify_commit_record_steps w (build_headers token) org
                    (target_repo cfg) cfg) as S4.
      split.
      + intros S. rewrite (run_halts_at_structure token org content C E S).
        cbn [trace result fst snd]. unfold banner.
        cbn [app steps requests filter is_http].
        rewrite steps_app, requests_app, S1, S2, Q2, app_nil_r. auto.
      + intros S. split.
        * intros N.
          rewrite (run_halts_at_accuracy token org content _ C E S eq_refl N).
          cbn [trace result fst snd]. unfold banner.
          cbn [app steps requests filter is_http].
          rewrite !steps_app, !requests_app, S1, S2, S3, Q2, Q3, !app_nil_r.
          auto.
        * intros A. split; [|split].
          -- destruct (outcome_true_dec (result (commits token org)))
               as [R|R].
             ++ rewrite (run_passes token org content C E S A R).
                cbn [trace result fst snd]. unfold banner.
                cbn [app steps]. rewrite !steps_app, S1, S2, S3, S4.
                reflexivity.
             ++ rewrite (run_halts_at_commits token org content _ C E S A
                           eq_refl R).
                cbn [trace result fst snd]. unfold banner.
                cbn [app steps]. rewrite !steps_app, S1, S2, S3, S4.
                reflexivity.
          -- intros R.
             rewrite (run_halts_at_commits token org content _ C E S A
                        eq_refl R).
             reflexivity.
          -- intros R. rewrite (run_passes token org content C E S A R).
             reflexivity. }
  assert (None_case : credentials w = None ->
            steps (trace (run_verification w cfg)) = []
            /\ result (run_verification w cfg) = Ok false).
  { intros C. rewrite (run_verification_no_credentials C).
    destruct (falsy (env_token w)); split; reflexivity. }
  unfold main. cbn [snd].
  split; [apply exit_code_range|].
  split; [|split; [|split; [exact None_case | exact Scen]]].
  - rewrite exit_code_zero. split.
    + intros T. destruct (credentials w) as [[token org]|] eqn:C.
      * destruct (Scen token org eq_refl) as [F1 F2].
        destruct (existence_outcomes token org) as [_ [_ [E|[content E]]]].
        { destruct (F1 None E) as [_ [_ R]]. congruence. }
        destruct (F2 content E) as [G1 G2].
        destruct (verify_file_structure_steps content) as [_ [_ [S|S]]].
        2:{ destruct (G1 S) as [_ [_ R]]. congruence. }
        destruct (G2 S) as [H1 H2].
        destruct (outcome_true_dec (result (accuracy content))) as [A|A].
        2:{ destruct (H1 A) as [_ [_ R]]. rewrite T in R.
            symmetry in R. destruct (halted_not_true _ R). }
        destruct (H2 A) as [_ [K1 K2]].
        destruct (outcome_true_dec (result (commits token org))) as [R|R].
        2:{ specialize (K1 R). rewrite T in K1.
            symmetry in K1. destruct (halted_not_true _ K1). }
        exists token, org, content. auto.
      * destruct (None_case eq_refl) as [_ R]. congruence.
    + intros [token [org [content [C [E [S [A R]]]]]]].
      rewrite (run_passes token org content C E S A R). reflexivity.
  - destruct (credentials w) as [[token org]|] eqn:C.
    + destruct (Scen token org eq_refl) as [F1 F2].
      destruct (existence_outcomes token org) as [_ [_ [E|[content E]]]].
      { exists 1. apply (F1 None E). }
      destruct (F2 content E) as [G1 G2].
      destruct (verify_file_structure_steps content) as [_ [_ [S|S]]].
      2:{ exists 2. apply (G1 S). }
      destruct (G2 S) as [H1 H2].
      destruct (outcome_true_dec (result (accuracy content))) as [A|A].
      2:{ exists 3. apply (H1 A). }
      exists 4. apply (H2 A).
    + exists 0. apply (None_case eq_refl).
Qed.

End Run.

(** *** Runs on the sample data *)

Lemma structure_check_reports_missing_witness :
  printed Stderr
    (trace (verify_file_structure (py "| Developer | GitHub Username |")
              VERIFICATION_CONFIG))
  = [LMissing (py "# Claude AI 协作分析, ## 汇总统计")].
Proof.
  rewrite (proj1 (proj2 (proj2 (structure_check_reports_missing
                                  (py "| Developer | GitHub Username |")
                                  VERIFICATION_CONFIG)))).
  - vm_compute; reflexivity.
  - vm_compute; reflexivity.
Defined.

Lemma missing_credentials_abort_witness :
  run_verification (RE := Reference.literal_engine)
    (CD := Reference.cpython_codec) Samples.no_token_world VERIFICATION_CONFIG
  = (banner ++ [Print Stderr LEnvTokenMissing], Ok false).
Proof.
  exact (proj1 (missing_credentials_abort (RE := Reference.literal_engine)
                  (CD := Reference.cpython_codec) Samples.no_token_world
                  VERIFICATION_CONFIG (or_introl eq_refl))).
Defined.

Example missing_org_aborts :
  main (RE := Reference.literal_engine) (CD := Reference.cpython_codec)
    Samples.no_org_world VERIFICATION_CONFIG
  = (banner ++ [Print Stderr LEnvOrgMissing], 1%Z).
Proof. vm_compute; reflexivity. Qed.

(** The report that counts 200 commits: the run stops in the third step,
    after the one request of the first. *)
Lemma run_order_and_exit_code_witness :
  steps (trace (run_verification (RE := Reference.literal_engine)
                  (CD := Reference.cpython_codec) Samples.stale_world
                  VERIFICATION_CONFIG))
  = [1; 2; 3]
  /\ requests (trace (run_verification (RE := Reference.literal_engine)
                        (CD := Reference.cpython_codec) Samples.stale_world
                        VERIFICATION_CONFIG))
     = [HttpGet Samples.contents_url (build_headers (py "ghp_token"))]
  /\ result (run_verification (RE := Reference.literal_engine)
               (CD := Reference.cpython_codec) Samples.stale_world
               VERIFICATION_CONFIG)
     = Ok false.
Proof.
  destruct (run_order_and_exit_code (RE := Reference.literal_engine)
              (CD := Reference.cpython_codec) Samples.stale_world
              VERIFICATION_CONFIG) as [_ [_ [_ [_ H]]]].
  destruct (H (py "ghp_token") (py "anthropics")) as [_ H1];
    [vm_compute; reflexivity|].
  destruct (H1 (Samples.report "200")) as [_ H2];
    [vm_compute; reflexivity|].
  destruct H2 as [H3 _]; [vm_compute; reflexivity|].
  destruct H3 as [S [Q R]]; [differ|].
  split; [exact S|]. split; [rewrite Q|rewrite R]; vm_compute; reflexivity.
Defined.

(** The scenario of the specification: every step passes, the process
    exits with 0 and the summary names the file and the repository. *)
Example all_steps_pass_exit_zero :
  snd (main (RE := Reference.literal_engine) (CD := Reference.cpython_codec)
         Samples.good_world VERIFICATION_CONFIG) = 0%Z
  /\ steps (fst (main (RE := Reference.literal_engine)
                   (CD := Reference.cpython_codec)
                   Samples.good_world VERIFICATION_CONFIG)) = [1; 2; 3; 4]
  /\ In (Print Stdout (LSummaryFile (py "CLAUDE_COLLABORATION_ANALYSIS.md")))
        (fst (main (RE := Reference.literal_engine)
                (CD := Reference.cpython_codec)
                Samples.good_world VERIFICATION_CONFIG))
  /\ In (Print Stdout (LSummaryRepo (py "anthropics") (py "claude-code")))
        (fst (main (RE := Reference.literal_engine)
                (CD := Reference.cpython_codec)
                Samples.good_world VERIFICATION_CONFIG)).
Proof.
  split; [vm_compute; reflexivity|].
  split; [vm_compute; reflexivity|].
  split; vm_compute; tauto.
Qed.

(** The commits endpoint is down: the fourth step fails the run. *)
Example commits_unavailable :
  snd (main (RE := Reference.literal_engine) (CD := Reference.cpython_codec)
         Samples.no_commits_world VERIFICATION_CONFIG) = 1%Z
  /\ steps (fst (main (RE := Reference.literal_engine)
                   (CD := Reference.cpython_codec)
                   Samples.no_commits_world VERIFICATION_CONFIG))
     = [1; 2; 3; 4].
Proof. split; vm_compute; reflexivity. Qed.

(* ------------------------------------------------------------------ *)
(** * Further properties of the script *)

(** ** Lines and digit runs *)

Lemma split_lines_app (a b : pystr) :
  split_lines (a ++ LF :: b) = split_lines a ++ split_lines b.
Proof.
  induction a as [|c a IH]; [reflexivity|].
  simpl. destruct (N.eqb c LF).
  - rewrite IH. reflexivity.
  - rewrite IH. pose proof (split_lines_nonempty a) as NE.
    destruct (split_lines a) as [|l ls]; [congruence | reflexivity].
Qed.

Lemma split_lines_single (l : pystr) : single_line l -> split_lines l = [l].
Proof.
  unfold single_line. induction l as [|c l IH]; [reflexivity|].
  intros N. simpl. destruct (N.eqb_spec c LF) as [->|_].
  - destruct N. left. reflexivity.
  - rewrite IH; [reflexivity|]. intros I. apply N. right. exact I.
Qed.

(** X1: [content.split("\n")] cuts the content at the newlines and nowhere
    else: joining the lines with newlines gives the content back, no line
    holds a newline, and lines free of newlines, joined, split into
    themselves. *)
Theorem split_lines_round_trip :
  (forall content, join [LF] (split_lines content) = content)
  /\ (forall content, Forall single_line (split_lines content))
  /\ (forall lines,
        lines <> [] -> Forall single_line lines ->
        split_lines (join [LF] lines) = lines).
Proof.
  split; [exact join_split_lines|]. split; [exact split_lines_no_LF|].
  induction lines as [|l lines IH]; [congruence|].
  intros _ F. inversion F as [|? ? Hl Hls]; subst.
  destruct lines as [|l' lines].
  - simpl. apply split_lines_single. exact Hl.
  - change (join [LF] (l :: l' :: lines))
      with (l ++ LF :: join [LF] (l' :: lines)).
    rewrite split_lines_app, (split_lines_single l Hl), IH;
      [reflexivity | discriminate | exact Hls].
Qed.

Lemma split_lines_round_trip_witness :
  split_lines (join [LF] [py "total: 200"; []; py "total: 158"])
  = [py "total: 200"; []; py "total: 158"].
Proof.
  apply (proj2 (proj2 split_lines_round_trip)); [discriminate|].
  repeat constructor; unfold single_line; vm_compute; intuition discriminate.
Defined.

Lemma take_digits_app (d post : pystr) :
  forallb is_digit d = true ->
  match post with [] => True | c :: _ => is_digit c = false end ->
  take_digits (d ++ post) = d.
Proof.
  intros D P. induction d as [|c d IH]; simpl in *.
  - destruct post as [|c post]; [reflexivity|]. simpl. rewrite P. reflexivity.
  - apply andb_true_iff in D. destruct D as [Dc D]. rewrite Dc, (IH D).
    reflexivity.
Qed.

Lemma first_digit_run_found (pre d post : pystr) :
  forallb (fun c => negb (is_digit c)) pre = true ->
  d <> [] -> forallb is_digit d = true ->
  match post with [] => True | c :: _ => is_digit c = false end ->
  first_digit_run (pre ++ d ++ post) = Some d.
Proof.
  intros Np Nd D P. induction pre as [|x pre IH]; simpl in *.
  - destruct d as [|c d]; [congruence|]. simpl in *.
    apply andb_true_iff in D. destruct D as [Dc D]. rewrite Dc.
    rewrite (take_digits_app d post D P). reflexivity.
  - apply andb_true_iff in Np. destruct Np as [Nx Np].
    apply negb_true_iff in Nx. rewrite Nx. apply IH. exact Np.
Qed.

(** X2: the number a [stat_match] rule reads from a line is the leftmost
    run of decimal digits, taken as long as it goes: no digit comes before
    it and none follows it directly.  A line has no such number exactly when
    it has no digit. *)
Theorem first_digit_run_leftmost_longest (line : pystr) :
  (forall d,
     first_digit_run line = Some d <->
     exists pre post,
       line = pre ++ d ++ post
       /\ forallb (fun c => negb (is_digit c)) pre = true
       /\ d <> [] /\ forallb is_digit d = true
       /\ match post with [] => True | c :: _ => is_digit c = false end)
  /\ (first_digit_run line = None <-> forall c, In c line -> is_digit c = false).
Proof.
  split.
  - intros d. split; [apply first_digit_run_spec|].
    intros [pre [post [-> [Np [Nd [D P]]]]]].
    apply first_digit_run_found; assumption.
  - rewrite first_digit_run_none, forallb_forall. split.
    + intros H c I. apply negb_true_iff. apply H. exact I.
    + intros H c I. apply negb_true_iff. apply H. exact I.
Qed.

(** ** More on the content rules *)

Section MoreContentRules.

Context {RE : RegexEngine}.

Lemma qualifies_number (label number line : pystr) :
  qualifies label number line ->
  number <> [] /\ forall c, In c number -> is_digit c = true.
Proof.
  intros [_ F]. apply first_digit_run_spec in F.
  destruct F as [pre [post [_ [_ [N [D _]]]]]].
  split; [exact N|]. apply forallb_forall. exact D.
Qed.

Lemma str_of_int_negative (z : Z) :
  (z < 0)%Z ->
  str_of_int z = [] \/ exists rest, str_of_int z = 45%N :: rest.
Proof.
  destruct z as [|p|p]; try lia. intros _.
  unfold str_of_int, py. simpl Z.to_int. simpl NilZero.string_of_int.
  simpl list_ascii_of_string. simpl map.
  change (N_of_ascii "-") with 45%N.
  change (utf8_code_points (45%N :: ?r))
    with (option_map (cons 45%N) (utf8_code_points r)).
  match goal with
  | |- context [utf8_code_points ?r] => destruct (utf8_code_points r)
  end; simpl; [right; eexists; reflexivity | left; reflexivity].
Qed.

(** X3: the expected value of a [stat_match] rule is compared with a run of
    digits, so a rule whose expected text is empty or holds any character
    that is no digit (a sign, a separator, a decimal point) never matches,
    whatever the content; this includes every negative number. *)
Theorem stat_match_needs_digit_text (content : pystr) (lines : list pystr)
    (label : pystr) (number : pyval) :
  py_str number = []
  \/ (exists c, In c (py_str number) /\ is_digit c = false)
  \/ (exists z, number = VInt z /\ (z < 0)%Z) ->
  rule_matched content lines (stat_match label number) = Ok false.
Proof.
  intros H. rewrite rule_matched_stat. f_equal.
  destruct (stat_scan label (py_str number) lines) eqn:S; [|reflexivity].
  exfalso. apply stat_scan_spec in S. destruct S as [line [_ Q]].
  destruct (qualifies_number _ _ _ Q) as [NE D].
  destruct H as [E|[[c [I F]]|[z [-> Z]]]].
  - congruence.
  - rewrite (D c I) in F. discriminate.
  - simpl in NE, D. destruct (str_of_int_negative z Z) as [E|[rest E]].
    + congruence.
    + specialize (D 45%N). rewrite E in D.
      specialize (D (or_introl eq_refl)). vm_compute in D. discriminate.
Qed.

Lemma stat_scan_incl (label number : pystr) (ls ls' : list pystr) :
  incl ls ls' ->
  stat_scan label number ls = true -> stat_scan label number ls' = true.
Proof.
  intros I S. apply stat_scan_spec in S. apply stat_scan_spec.
  destruct S as [line [In_ Q]]. exists line. split; [apply I|]; assumption.
Qed.

Lemma occurs_in_context (p s pre post : pystr) :
  occurs_in p s -> occurs_in p (pre ++ s ++ post).
Proof.
  intros [a [b ->]]. exists (pre ++ a), (b ++ post).
  rewrite <- !app_assoc. reflexivity.
Qed.

(** X4: a [stat_match] or [text_match] rule that matches a content still
    matches when whole lines are added above and below it. *)
Theorem rules_survive_added_lines (content above below : pystr)
    (rule : content_rule) :
  rule_type rule = py "stat_match" \/ rule_type rule = py "text_match" ->
  rule_matched content (split_lines content) rule = Ok true ->
  rule_matched (above ++ LF :: content ++ LF :: below)
    (split_lines (above ++ LF :: content ++ LF :: below)) rule
  = Ok true.
Proof.
  intros [T|T]; unfold rule_matched; rewrite T.
  - change (PyStr.eqb (py "stat_match") (py "stat_match")) with true.
    cbn iota. intros E. f_equal. injection E as E.
    rewrite !split_lines_app.
    apply (stat_scan_incl _ _ (split_lines content)); [|exact E].
    intros l I. apply in_or_app. right. apply in_or_app. left. exact I.
  - change (PyStr.eqb (py "text_match") (py "stat_match")) with false.
    change (PyStr.eqb (py "text_match") (py "regex_match")) with false.
    change (PyStr.eqb (py "text_match") (py "text_match")) with true.
    cbn iota. destruct (expected rule) as [s|z]; [|discriminate].
    intros E. f_equal. injection E as E.
    apply contains_spec. apply contains_spec in E.
    apply (occurs_in_context s content (above ++ [LF]) (LF :: below)) in E.
    rewrite <- app_assoc in E. exact E.
Qed.

Lemma rule_type_cases (rule : content_rule) :
  rule_type rule = py "stat_match" \/ rule_type rule = py "regex_match"
  \/ rule_type rule = py "text_match"
  \/ (rule_type rule <> py "stat_match" /\ rule_type rule <> py "regex_match"
      /\ rule_type rule <> py "text_match").
Proof.
  destruct (PyStr.eqb (rule_type rule) (py "stat_match")) eqn:S;
    [apply eqb_eq in S; tauto | apply eqb_neq in S].
  destruct (PyStr.eqb (rule_type rule) (py "regex_match")) eqn:R;
    [apply eqb_eq in R; tauto | apply eqb_neq in R].
  destruct (PyStr.eqb (rule_type rule) (py "text_match")) eqn:T;
    [apply eqb_eq in T; tauto | apply eqb_neq in T].
  tauto.
Qed.

(** X5: which rules raise when they are evaluated.  With a string as
    expected value, a [stat_match] and a [text_match] rule never raise, and
    a [regex_match] rule raises exactly when its pattern does not compile.
    With a number as expected value, a [regex_match] and a [text_match]
    rule raise [TypeError]. *)
Theorem rule_raises_only_on (content : pystr) (lines : list pystr)
    (rule : content_rule) :
  (rule_type rule = py "stat_match" ->
   forall s, expected rule = VStr s ->
             exists b, rule_matched content lines rule = Ok b)
  /\ (rule_type rule = py "text_match" ->
      (forall s, expected rule = VStr s ->
                 exists b, rule_matched content lines rule = Ok b)
      /\ (forall z, expected rule = VInt z ->
                    rule_matched content lines rule = Raise TypeError))
  /\ (rule_type rule = py "regex_match" ->
      (forall z, expected rule = VInt z ->
                 rule_matched content lines rule = Raise TypeError)
      /\ (forall p, expected rule = VStr p ->
                    ((exists e, rule_matched content lines rule = Raise e)
                     <-> re_compile false p = None))).
Proof.
  unfold rule_matched. split; [|split].
  - intros T s E. rewrite T, E.
    change (PyStr.eqb (py "stat_match") (py "stat_match")) with true.
    cbn iota. eexists. reflexivity.
  - intros T. rewrite T.
    change (PyStr.eqb (py "text_match") (py "stat_match")) with false.
    change (PyStr.eqb (py "text_match") (py "regex_match")) with false.
    change (PyStr.eqb (py "text_match") (py "text_match")) with true.
    cbn iota. split.
    + intros s ->. eexists. reflexivity.
    + intros z ->. reflexivity.
  - intros T. rewrite T.
    change (PyStr.eqb (py "regex_match") (py "stat_match")) with false.
    change (PyStr.eqb (py "regex_match") (py "regex_match")) with true.
    cbn iota. split.
    + intros z ->. reflexivity.
    + intros p ->. unfold re_search.
      destruct (re_compile false p) as [c|]; split.
      * intros [e E]. discriminate E.
      * discriminate.
      * reflexivity.
      * intros _. eexists. reflexivity.
Qed.

(** X6: an exception raised by a rule is not caught: when the rules before
    it match, the step ends with that exception, having printed its header
    and no diagnostic; the rules after it play no part. *)
Theorem content_accuracy_raises (content : pystr) (cfg : config)
    (passed : list content_rule) (raising : content_rule)
    (rest : list content_rule) (e : exn) :
  content_rules cfg = passed ++ raising :: rest ->
  Forall (fun r => rule_matched content (split_lines content) r = Ok true)
         passed ->
  rule_matched content (split_lines content) raising = Raise e ->
  verify_content_accuracy content cfg
  = ([Print Stdout (LStep3 (List.length (content_rules cfg)))], Raise e).
Proof.
  intros E P F.
  rewrite verify_content_accuracy_rules
    by (rewrite E; destruct passed; discriminate).
  rewrite E at 1. rewrite (check_rules_passed _ _ _ _ P).
  rewrite (check_rules_raised _ _ _ rest e F). reflexivity.
Qed.

Lemma check_rules_verdicts (content : pystr) (rules : list content_rule) :
  Forall (fun r => forall e,
            rule_matched content (split_lines content) r <> Raise e) rules ->
  result (check_rules content (split_lines content) rules)
  = Ok (forallb (verdict content) rules).
Proof.
  induction 1 as [|r rules N _ IH]; [reflexivity|].
  simpl. unfold verdict at 1.
  destruct (rule_matched content (split_lines content) r) as [[|]|e];
    simpl.
  - unfold result in IH.
    destruct (check_rules content (split_lines content) rules). exact IH.
  - reflexivity.
  - destruct (N e eq_refl).
Qed.

Lemma forallb_permutation {A} (f : A -> bool) (l l' : list A) :
  Permutation l l' -> forallb f l = forallb f l'.
Proof.
  induction 1; simpl; try congruence.
  destruct (f x), (f y); reflexivity.
Qed.

(** X7: when no rule raises, the order of the rules decides which
    diagnostic is printed but not the verdict: the step passes exactly when
    every rule matches, and reordering the rules leaves its result
    unchanged. *)
Theorem content_accuracy_order_free (content : pystr) (cfg cfg' : config) :
  Forall (fun r => forall e,
            rule_matched content (split_lines content) r <> Raise e)
         (content_rules cfg) ->
  Permutation (content_rules cfg) (content_rules cfg') ->
  result (verify_content_accuracy content cfg)
  = result (verify_content_accuracy content cfg')
  /\ (result (verify_content_accuracy content cfg) = Ok true
      <-> Forall (fun r => rule_matched content (split_lines content) r
                           = Ok true) (content_rules cfg)).
Proof.
  intros N P.
  assert (N' : Forall (fun r => forall e,
                 rule_matched content (split_lines content) r <> Raise e)
                 (content_rules cfg'))
    by (apply (Permutation_Forall P); exact N).
  assert (V : forall c, Forall (fun r => forall e,
                 rule_matched content (split_lines content) r <> Raise e)
                 (content_rules c) ->
              result (verify_content_accuracy content c)
              = Ok (forallb (verdict content) (content_rules c))).
  { intros c H. rewrite verify_content_accuracy_result.
    rewrite <- (check_rules_verdicts content _ H).
    destruct (content_rules c); reflexivity. }
  rewrite (V cfg N), (V cfg' N'), (forallb_permutation _ _ _ P).
  split; [reflexivity|]. rewrite <- (forallb_permutation _ _ _ P).
  split.
  - intros E. injection E as E. rewrite forallb_forall in E.
    apply Forall_forall. intros r I. specialize (E r I).
    unfold verdict in E.
    destruct (rule_matched content (split_lines content) r) as [[|]|e];
      [reflexivity | discriminate | discriminate].
  - intros F. f_equal. apply forallb_forall. intros r I.
    rewrite Forall_forall in F. unfold verdict. rewrite (F r I). reflexivity.
Qed.

End MoreContentRules.

(** *** On the sample data *)

Lemma stat_match_needs_digit_text_witness :
  rule_matched (RE := Reference.literal_engine) Samples.two_totals
    (split_lines Samples.two_totals) (stat_match (py "total:") (VInt (-158)))
  = Ok false.
Proof.
  apply (stat_match_needs_digit_text (RE := Reference.literal_engine)).
  right. right. exists (-158)%Z. split; [reflexivity | lia].
Defined.

Lemma rules_survive_added_lines_witness :
  rule_matched (RE := Reference.literal_engine)
    (py "# report" ++ LF :: py "total: 158" ++ LF :: [])
    (split_lines (py "# report" ++ LF :: py "total: 158" ++ LF :: []))
    (stat_match (py "total:") (VStr (py "158")))
  = Ok true.
Proof.
  apply (rules_survive_added_lines (RE := Reference.literal_engine)
           (py "total: 158") (py "# report") []);
    [left; reflexivity | vm_compute; reflexivity].
Defined.

Lemma content_accuracy_raises_witness :
  verify_content_accuracy (RE := Reference.literal_engine)
    (Samples.report "158")
    (Samples.config_with
       [Samples.count_rule; Samples.broken_rule; Samples.fuzzy_rule])
  = ([Print Stdout (LStep3 3)], Raise ReError).
Proof.
  exact (content_accuracy_raises (RE := Reference.literal_engine)
           (Samples.report "158")
           (Samples.config_with
              [Samples.count_rule; Samples.broken_rule; Samples.fuzzy_rule])
           [Samples.count_rule] Samples.broken_rule
           [Samples.fuzzy_rule] ReError eq_refl
           (Forall_cons _ count_158_passes (Forall_nil _)) eq_refl).
Defined.

Lemma content_accuracy_order_free_witness :
  result (verify_content_accuracy (RE := Reference.literal_engine)
            Samples.two_totals
            (Samples.config_with [Samples.fuzzy_rule; Samples.total_rule]))
  = result (verify_content_accuracy (RE := Reference.literal_engine)
              Samples.two_totals
              (Samples.config_with [Samples.total_rule; Samples.fuzzy_rule])).
Proof.
  apply (content_accuracy_order_free (RE := Reference.literal_engine)).
  - repeat constructor; intros e H; vm_compute in H; discriminate H.
  - apply perm_swap.
Defined.

(* ------------------------------------------------------------------ *)
(** ** More on the structure step *)

Lemma verify_file_structure_true (content : pystr) (cfg : config) :
  result (verify_file_structure content cfg) = Ok true
  <-> forall s, In s (required_structures cfg) -> occurs_in s content.
Proof.
  rewrite <- missing_structures_nil. unfold verify_file_structure.
  destruct (missing_structures content (required_structures cfg));
    simpl; split; congruence.
Qed.

(** X8: the structure check is monotone in the content: a content that
    passes still passes with any text put before and after it. *)
Theorem structure_check_monotone (content : pystr) (cfg : config) :
  result (verify_file_structure content cfg) = Ok true ->
  forall before after,
    result (verify_file_structure (before ++ content ++ after) cfg) = Ok true.
Proof.
  intros H before after. apply verify_file_structure_true.
  intros s I. destruct (proj1 (verify_file_structure_true content cfg) H s I)
    as [a [b ->]].
  exists (before ++ a), (b ++ after). rewrite <- !app_assoc. reflexivity.
Qed.

Lemma structure_check_monotone_witness :
  result (verify_file_structure
            (py "<!-- draft -->" ++ Samples.report "158" ++ py "EOF")
            VERIFICATION_CONFIG)
  = Ok true.
Proof.
  apply (structure_check_monotone (Samples.report "158") VERIFICATION_CONFIG).
  vm_compute; reflexivity.
Defined.

(* ------------------------------------------------------------------ *)
(** ** More on the API layer *)

Section MoreApi.

Context {RE : RegexEngine} {CD : Codec}.
Variables (w : World) (hdrs : headers) (org repo : pystr).

Lemma call_github_api_ok (endpoint : pystr) (j : json) :
  api_answer w (api_url org repo endpoint) hdrs = Some j ->
  call_github_api w endpoint hdrs org repo
  = ([HttpGet (api_url org repo endpoint) hdrs], Ok (true, j)).
Proof.
  unfold call_github_api, api_answer. fold (api_url org repo endpoint).
  destruct (http_get w (api_url org repo endpoint) hdrs)
    as [status [j'|]|]; try discriminate.
  destruct (Z.eqb status 200); [|discriminate].
  intros E. injection E as ->. reflexivity.
Qed.

(** X9: a call to the API sends exactly one request, to the URL of the
    endpoint in the repository and with the headers given, and never
    raises.  It succeeds exactly on status 200 with a JSON body and then
    prints nothing; every other outcome gives [(False, None)] and exactly
    one line on the error stream.  Nothing goes to the standard stream. *)
Theorem call_github_api_contract (endpoint : pystr) :
  exists ok body,
    result (call_github_api w endpoint hdrs org repo) = Ok (ok, body)
    /\ requests (trace (call_github_api w endpoint hdrs org repo))
       = [HttpGet (api_url org repo endpoint) hdrs]
    /\ printed Stdout (trace (call_github_api w endpoint hdrs org repo)) = []
    /\ (ok = true
        <-> http_get w (api_url org repo endpoint) hdrs
            = Responded 200 (Some body))
    /\ (ok = true ->
        printed Stderr (trace (call_github_api w endpoint hdrs org repo)) = [])
    /\ (ok = false ->
        body = JNull
        /\ exists line,
             printed Stderr (trace (call_github_api w endpoint hdrs org repo))
             = [line]).
Proof.
  unfold call_github_api. fold (api_url org repo endpoint).
  destruct (http_get w (api_url org repo endpoint) hdrs)
    as [status [j|]|]; simpl.
  - destruct (Z.eqb_spec status 200) as [->|N]; simpl.
    + exists true, j. repeat split; auto; discriminate.
    + destruct (Z.eqb status 404); simpl; exists false, JNull;
        repeat split; auto; try discriminate; try congruence;
        eexists; reflexivity.
  - destruct (Z.eqb status 200); simpl;
      [|destruct (Z.eqb status 404); simpl]; exists false, JNull;
      repeat split; auto; try discriminate; eexists; reflexivity.
  - exists false, JNull.
    repeat split; auto; try discriminate; eexists; reflexivity.
Qed.

(** X10: an answer that is not the JSON object the fetch expects never
    makes it raise.  An empty or null answer gives no content without a
    word; an answer that is no object (a directory listing is an array) and
    a content field that is no string give no content and one decoding
    diagnostic on the error stream. *)
Theorem fetch_rejects_malformed_answer (file_path branch : pystr) (j : json) :
  api_answer w (api_url org repo (contents_endpoint file_path branch)) hdrs
  = Some j ->
  (truthy j = false ->
   get_repo_file_content w file_path hdrs org repo branch
   = ([HttpGet (api_url org repo (contents_endpoint file_path branch)) hdrs],
      Ok None))
  /\ (truthy j = true -> (forall kv, j <> JObj kv) ->
      get_repo_file_content w file_path hdrs org repo branch
      = ([HttpGet (api_url org repo (contents_endpoint file_path branch)) hdrs;
          Print Stderr (LDecodeError file_path AttributeError)],
         Ok None))
  /\ (forall kv v,
        j = JObj kv -> lookup (py "content") kv = Some v ->
        (forall s, v <> JStr s) ->
        get_repo_file_content w file_path hdrs org repo branch
        = ([HttpGet (api_url org repo (contents_endpoint file_path branch))
              hdrs;
            Print Stderr (LDecodeError file_path TypeError)],
           Ok None)).
Proof.
  intros A. unfold get_repo_file_content.
  fold (contents_endpoint file_path branch).
  rewrite (call_github_api_ok _ _ A). simpl.
  split; [|split].
  - intros ->. reflexivity.
  - intros -> N. unfold decode_content.
    destruct j; try reflexivity. destruct (N fields eq_refl).
  - intros kv v -> L N. rewrite (lookup_some_truthy _ _ _ L).
    unfold decode_content. simpl. rewrite L. simpl.
    destruct v; try reflexivity. destruct (N s eq_refl).
Qed.

Local Abbreviation commits_url rule :=
  (api_url org repo (commits_endpoint (commit_limit rule))).


(** X11: a [msg_pattern] that is no regular expression is only noticed
    when the commits call succeeds: the step then raises [re.error],
    whatever commits came back; when the call fails the step returns
    failure as for any pattern. *)
Theorem invalid_pattern_needs_answer (cfg : config) (rule : commit_rule) :
  commit_verification cfg = Some rule ->
  re_compile true (msg_pattern rule) = None ->
  (api_answer w (commits_url rule) hdrs = None ->
   result (verify_commit_record w cfg hdrs org repo) = Ok false)
  /\ (forall j,
        api_answer w (commits_url rule) hdrs = Some j ->
        verify_commit_record w cfg hdrs org repo
        = ([Print Stdout (LStep4 (msg_pattern rule) (commit_limit rule));
            HttpGet (commits_url rule) hdrs],
           Raise ReError)).
Proof.
  intros C P. split.
  - intros A.
    destruct (verify_commit_record_spec w hdrs org repo cfg rule C) as [R _].
    destruct (search_commits_spec w hdrs org repo (msg_pattern rule)
                (commit_limit rule)) as [logs [E _]].
    rewrite R, E. simpl. rewrite A. reflexivity.
  - intros j A. unfold verify_commit_record. rewrite C.
    fold (commit_limit rule). unfold search_commits.
    fold (commits_endpoint (commit_limit rule)).
    rewrite (call_github_api_ok _ _ A). simpl. rewrite P. reflexivity.
Qed.



End MoreApi.

(** *** The API layer on the sample data *)

Lemma fetch_rejects_malformed_answer_witness :
  get_repo_file_content (CD := Reference.cpython_codec) Samples.listing_world
    (py "CLAUDE_COLLABORATION_ANALYSIS.md") (build_headers (py "ghp_token"))
    (py "anthropics") (py "claude-code") (py "main")
  = ([HttpGet Samples.contents_url (build_headers (py "ghp_token"));
      Print Stderr (LDecodeError (py "CLAUDE_COLLABORATION_ANALYSIS.md")
                                 AttributeError)],
     Ok None).
Proof.
  refine (proj1 (proj2 (fetch_rejects_malformed_answer
                          (CD := Reference.cpython_codec)
                          Samples.listing_world
                          (build_headers (py "ghp_token"))
                          (py "anthropics") (py "claude-code")
                          (py "CLAUDE_COLLABORATION_ANALYSIS.md") (py "main")
                          _ _)) _ _).
  - vm_compute; reflexivity.
  - reflexivity.
  - intros kv E; discriminate E.
Defined.

Lemma invalid_pattern_needs_answer_witness :
  result (verify_commit_record (RE := Reference.literal_engine)
            Samples.empty_world Samples.broken_pattern_config
            (build_headers (py "ghp_token")) (py "anthropics")
            (py "claude-code"))
  = Ok false
  /\ result (verify_commit_record (RE := Reference.literal_engine)
               Samples.good_world Samples.broken_pattern_config
               (build_headers (py "ghp_token")) (py "anthropics")
               (py "claude-code"))
     = Raise ReError.
Proof.
  split.
  - apply (invalid_pattern_needs_answer (RE := Reference.literal_engine)
             Samples.empty_world (build_headers (py "ghp_token"))
             (py "anthropics") (py "claude-code")
             Samples.broken_pattern_config Samples.broken_pattern_rule);
      vm_compute; reflexivity.
  - destruct (invalid_pattern_needs_answer (RE := Reference.literal_engine)
                Samples.good_world (build_headers (py "ghp_token"))
                (py "anthropics") (py "claude-code")
                Samples.broken_pattern_config Samples.broken_pattern_rule)
      as [_ H]; [reflexivity | vm_compute; reflexivity |].
    rewrite (H (JArr (map Samples.commit_json Samples.history)));
      [reflexivity | vm_compute; reflexivity].
Defined.


(* ------------------------------------------------------------------ *)
(** ** More on whole runs *)


Lemma printed_last (to : stream) (t : list event) (e : event) :
  printed to (t ++ [e]) = printed to t ++ printed to [e].
Proof. apply printed_app. Qed.

Ltac reassoc :=
  repeat (rewrite <- ?app_assoc, <- ?app_comm_cons; cbn [app]); reflexivity.

Section MoreRun.

Context {RE : RegexEngine} {CD : Codec}.
Variables (w : World) (cfg : config).

Local Abbreviation existence token org :=
  (verify_file_existence w cfg (build_headers token) org (target_repo cfg)).
Local Abbreviation structure content := (verify_file_structure content cfg).
Local Abbreviation accuracy content := (verify_content_accuracy content cfg).
Local Abbreviation commits token org :=
  (verify_commit_record w cfg (build_headers token) org (target_repo cfg)).
Local Abbreviation ready org :=
  (Print Stdout (LEnvReady org (target_repo cfg))).
Local Abbreviation summary org :=
  [ Print Stdout LRule; Print Stdout LAllPassed;
    Print Stdout (LSummaryFile (path (target_file cfg)));
    Print Stdout (LSummaryRepo org (target_repo cfg));
    Print Stdout LRule ].

(** Every run is one of six: no credentials, stopped in one of the four
    steps, or passed. *)
Lemma run_scenarios :
  (credentials w = None
   /\ run_verification w cfg
      = (banner ++
         [Print Stderr (if falsy (env_token w) then LEnvTokenMissing
                        else LEnvOrgMissing)], Ok false))
  \/ exists token org,
       credentials w = Some (token, org)
       /\ ((result (existence token org) = Ok (false, None)
            /\ run_verification w cfg
               = (banner ++ ready org :: trace (existence token org),
                  Ok false))
           \/ exists content,
                result (existence token org) = Ok (true, Some content)
                /\ ((result (structure content) = Ok false
                     /\ run_verification w cfg
                        = (banner ++ ready org :: trace (existence token org)
                             ++ trace (structure content), Ok false))
                    \/ (result (structure content) = Ok true
                        /\ ((result (accuracy content) <> Ok true
                             /\ run_verification w cfg
                                = (banner ++ ready org
                                     :: trace (existence token org)
                                     ++ trace (structure content)
                                     ++ trace (accuracy content),
                                   halted (result (accuracy content))))
                            \/ (result (accuracy content) = Ok true
                                /\ ((result (commits token org) <> Ok true
                                     /\ run_verification w cfg
                                        = (banner ++ ready org
                                             :: trace (existence token org)
                                             ++ trace (structure content)
                                             ++ trace (accuracy content)
                                             ++ trace (commits token org),
                                           halted
                                             (result (commits token org))))
                                    \/ (result (commits token org) = Ok true
                                        /\ run_verification w cfg
                                           = (banner ++ ready org
                                                :: trace (existence token org)
                                                ++ trace (structure content)
                                                ++ trace (accuracy content)
                                                ++ trace (commits token org)
                                                ++ summary org,
                                              Ok true)))))))).
Proof.
  destruct (credentials w) as [[token org]|] eqn:C.
  - right. exists token, org. split; [reflexivity|].
    destruct (existence_outcomes w cfg token org) as [_ [_ [E|[content E]]]].
    { left. split; [exact E|].
      exact (run_halts_at_existence w cfg token org None C E). }
    right. exists content. split; [exact E|].
    destruct (verify_file_structure_steps cfg content) as [_ [_ [S|S]]].
    2:{ left. split; [exact S|].
        exact (run_halts_at_structure w cfg token org content C E S). }
    right. split; [exact S|].
    destruct (outcome_true_dec (result (accuracy content))) as [A|A].
    2:{ left. split; [exact A|].
        exact (run_halts_at_accuracy w cfg token org content _ C E S
                 eq_refl A). }
    right. split; [exact A|].
    destruct (outcome_true_dec (result (commits token org))) as [R|R].
    + right. split; [exact R|].
      exact (run_passes w cfg token org content C E S A R).
    + left. split; [exact R|].
      exact (run_halts_at_commits w cfg token org content _ C E S A
               eq_refl R).
  - left. split; [reflexivity|].
    exact (run_verification_no_credentials w cfg C).
Qed.

Lemma verify_commit_record_requests (hdrs : headers) (org repo : pystr) :
  requests (trace (verify_commit_record w cfg hdrs org repo))
  = match commit_verification cfg with
    | Some rule =>
        [HttpGet (api_url org repo (commits_endpoint (commit_limit rule)))
           hdrs]
    | None => []
    end.
Proof.
  destruct (commit_verification cfg) as [rule|] eqn:C.
  - apply (verify_commit_record_spec w hdrs org repo cfg rule C).
  - unfold verify_commit_record. rewrite C. reflexivity.
Qed.

(** X13: the requests of a run are a beginning of its plan: first the
    file, then, when a commit rule is configured, the commits, each with
    the headers built from the token.  A run without credentials sends
    nothing, a run with credentials always sends the first request, and a
    run that passes has sent the whole plan. *)
Theorem run_requests_follow_plan :
  (credentials w = None <-> requests (trace (run_verification w cfg)) = [])
  /\ (forall token org,
        credentials w = Some (token, org) ->
        exists k,
          (1 <= k)%nat
          /\ requests (trace (run_verification w cfg))
             = firstn k (planned_requests cfg token org)
          /\ (result (run_verification w cfg) = Ok true ->
              requests (trace (run_verification w cfg))
              = planned_requests cfg token org)).
Proof.
  assert (P : forall token org,
            credentials w = Some (token, org) ->
            exists k,
              (1 <= k)%nat
              /\ requests (trace (run_verification w cfg))
                 = firstn k (planned_requests cfg token org)
              /\ (result (run_verification w cfg) = Ok true ->
                  requests (trace (run_verification w cfg))
                  = planned_requests cfg token org)).
  { intros token org C.
    destruct run_scenarios as [[C' _]|[token' [org' [C' S]]]];
      [congruence|].
    rewrite C in C'. injection C' as <- <-.
    destruct (existence_outcomes w cfg token org) as [_ [Q1 _]].
    pose proof (verify_commit_record_requests (build_headers token) org
                  (target_repo cfg)) as Q4.
    assert (F : forall k, (2 <= k)%nat ->
              firstn k (planned_requests cfg token org)
              = planned_requests cfg token org).
    { intros k K. apply firstn_all2. unfold planned_requests.
      destruct (commit_verification cfg); simpl; lia. }
    destruct S as [[_ R]|[content [_ [[_ R]|[_ [[_ R]|[_ [[_ R]|[_ R]]]]]]]]];
      rewrite R; cbn [trace result fst snd]; unfold banner;
      cbn [app requests filter is_http];
      rewrite ?requests_app;
      try (destruct (verify_file_structure_steps cfg content) as [_ [Q2 _]];
           rewrite Q2);
      try (destruct (verify_content_accuracy_steps cfg content) as [_ Q3];
           rewrite Q3);
      fold (requests (trace (existence token org)));
      rewrite ?Q1, ?Q4; cbn [app requests filter is_http].
    - exists 1. split; [lia|]. split; [reflexivity | discriminate].
    - exists 1. split; [lia|]. split; [reflexivity | discriminate].
    - exists 1. split; [lia|]. split; [reflexivity|].
      intros H. destruct (halted_not_true _ H).
    - exists 2. split; [lia|]. rewrite (F 2) by lia.
      unfold planned_requests.
      destruct (commit_verification cfg); split; try reflexivity;
        intros H; destruct (halted_not_true _ H).
    - exists 2. split; [lia|]. rewrite (F 2) by lia.
      unfold planned_requests.
      destruct (commit_verification cfg); split; reflexivity. }
  split; [|exact P].
  split.
  - intros C. rewrite (run_verification_no_credentials w cfg C).
    destruct (falsy (env_token w)); reflexivity.
  - intros R. destruct (credentials w) as [[token org]|] eqn:C;
      [|reflexivity].
    destruct (P token org eq_refl) as [k [K [E _]]]. rewrite R in E.
    destruct k; [lia|]. discriminate E.
Qed.

(** A trace that ends with a line on the error stream. *)
Local Abbreviation ends_on_stderr t :=
  (exists before line, t = before ++ [Print Stderr line]).









End MoreRun.

(* ------------------------------------------------------------------ *)
(** ** The token and the console

    The script puts the token into the request headers and nowhere else.
    What it prints of a failed request is the text of the exception, and
    that text is the transport's: [Samples.strict_world] rejects a header
    value with a carriage return and quotes it, as the library does. *)



Section Token.

Context {RE : RegexEngine} {CD : Codec}.
Variables w w' : World.
Hypothesis same_answers :
  forall url h h', http_get w url h = http_get w' url h'.






End Token.


(* ------------------------------------------------------------------ *)
(** ** Digits in the label *)

Section LabelDigits.

Context {RE : RegexEngine}.

(** X16: the number of a line is looked for from the start of the line, not
    after the label.  When the label itself holds a number and nothing
    numeric precedes the label in a one-line content, that number is the
    one compared: the rule matches exactly when the expected text is the
    label's own first number, whatever follows the label. *)
Theorem label_digits_shadow_value (before pre d post tail : pystr)
    (c : char) (number : pyval) :
  forallb (fun x => negb (is_digit x)) (before ++ pre) = true ->
  d <> [] -> forallb is_digit d = true -> is_digit c = false ->
  single_line (before ++ (pre ++ d ++ c :: post) ++ tail) ->
  rule_matched (before ++ (pre ++ d ++ c :: post) ++ tail)
    (split_lines (before ++ (pre ++ d ++ c :: post) ++ tail))
    (stat_match (pre ++ d ++ c :: post) number)
  = Ok (PyStr.eqb d (py_str number)).
Proof.
  intros N Nd D C L.
  rewrite rule_matched_stat, (split_lines_single _ L). f_equal.
  assert (F : first_digit_run (before ++ (pre ++ d ++ c :: post) ++ tail)
              = Some d).
  { replace (before ++ (pre ++ d ++ c :: post) ++ tail)
      with ((before ++ pre) ++ d ++ c :: post ++ tail) by reassoc.
    apply first_digit_run_found; assumption. }
  simpl.
  assert (O : contains (pre ++ d ++ c :: post)
                (before ++ (pre ++ d ++ c :: post) ++ tail) = true)
    by (apply contains_spec; exists before, tail; reflexivity).
  rewrite O, F. destruct (PyStr.eqb d (py_str number)); reflexivity.
Qed.

End LabelDigits.

Lemma label_digits_shadow_value_witness :
  rule_matched (RE := Reference.literal_engine) (py "Q4 total: 158")
    (split_lines (py "Q4 total: 158"))
    (stat_match (py "Q4 total:") (VStr (py "158")))
  = Ok false.
Proof.
  apply (label_digits_shadow_value (RE := Reference.literal_engine)
           [] (py "Q") (py "4") (py "total:") (py " 158") 32%N
           (VStr (py "158"))).
  - vm_compute; reflexivity.
  - differ.
  - vm_compute; reflexivity.
  - vm_compute; reflexivity.
  - unfold single_line. vm_compute. intuition discriminate.
Defined.

(** *** Whole runs on the sample data *)

Lemma run_requests_follow_plan_witness :
  requests (trace (run_verification (RE := Reference.literal_engine)
                     (CD := Reference.cpython_codec) Samples.good_world
                     VERIFICATION_CONFIG))
  = planned_requests VERIFICATION_CONFIG (py "ghp_token") (py "anthropics").
Proof.
  destruct (proj2 (run_requests_follow_plan (RE := Reference.literal_engine)
                     (CD := Reference.cpython_codec) Samples.good_world
                     VERIFICATION_CONFIG)
              (py "ghp_token") (py "anthropics"))
    as [k [_ [_ H]]]; [vm_compute; reflexivity|].
  apply H. vm_compute; reflexivity.
Defined.


(** A token that the transport refuses shows in the text of the exception
    the script prints. *)
Example refused_token_is_quoted :
  printed Stderr
    (trace (run_verification (RE := Reference.literal_engine)
              (CD := Reference.cpython_codec) Samples.strict_world
              VERIFICATION_CONFIG))
  = [ LApiException
        (py "contents/CLAUDE_COLLABORATION_ANALYSIS.md?ref=main")
        (RequestException
           (py "Invalid return character(s) in header value: Bearer ghp_token"
            ++ [13%N]));
      LFileNotFound (py "CLAUDE_COLLABORATION_ANALYSIS.md") (py "main") ].
Proof. vm_compute; reflexivity. Qed.

Lemma rule_raises_only_on_witness :
  exists e,
    rule_matched (RE := Reference.literal_engine) Samples.two_totals
      (split_lines Samples.two_totals) Samples.broken_rule = Raise e.
Proof.
  destruct (rule_raises_only_on (RE := Reference.literal_engine)
              Samples.two_totals (split_lines Samples.two_totals)
              Samples.broken_rule) as [_ [_ R]].
  destruct (R eq_refl) as [_ P].
  apply (P (py "(") eq_refl). vm_compute; reflexivity.
Defined.
